(** * The URL safety checker of tools/check_url_safety.py

    A shallow embedding of [URLSafetyChecker] (its rule tables, [check_url],
    [_result] and [check_batch]) together with the parts of the Python
    runtime it relies on: [str] methods, the fragment of [re] used by the
    rule table, [urllib.parse.urlparse], and the object store in which the
    checker keeps its [warnings] and [errors] lists.

    Python strings are modelled by [string], read as sequences of code
    points below 256. *)

From Stdlib Require Import Ascii String DecimalString ZArith Lia.
From stdpp Require Import base list strings gmap.

(** ** Python [str] *)

Module Str.

Definition code (c : ascii) : nat := nat_of_ascii c.

(** [c.isspace()] on the code points below 256. *)
Definition isspace (c : ascii) : bool :=
  let n := code c in
  ((9 <=? n) && (n <=? 13)) || ((28 <=? n) && (n <=? 32))
  || (n =? 133) || (n =? 160).

Definition isdigit (c : ascii) : bool :=
  let n := code c in (48 <=? n) && (n <=? 57).

Definition isalpha_ascii (c : ascii) : bool :=
  let n := code c in
  ((65 <=? n) && (n <=? 90)) || ((97 <=? n) && (n <=? 122)).

(** Simple lower-case mapping of one code point: [A-Z] and the upper-case
    letters of the Latin-1 block move up by 32. *)
Definition lower_char (c : ascii) : ascii :=
  let n := code c in
  if ((65 <=? n) && (n <=? 90))
     || ((192 <=? n) && (n <=? 222) && negb (n =? 215))
  then ascii_of_nat (n + 32) else c.

(** [s.lower()] *)
Fixpoint lower (s : string) : string :=
  match s with
  | EmptyString => EmptyString
  | String c t => String (lower_char c) (lower t)
  end.

(** [s.lstrip()] *)
Fixpoint lstrip (s : string) : string :=
  match s with
  | EmptyString => EmptyString
  | String c t => if isspace c then lstrip t else s
  end.

(** [s.rstrip()] *)
Fixpoint rstrip (s : string) : string :=
  match s with
  | EmptyString => EmptyString
  | String c t =>
      match rstrip t with
      | EmptyString => if isspace c then EmptyString else String c EmptyString
      | t' => String c t'
      end
  end.

(** [s.strip()] *)
Definition strip (s : string) : string := rstrip (lstrip s).

(** [s.startswith(p)] *)
Fixpoint startswith (p s : string) : bool :=
  match p, s with
  | EmptyString, _ => true
  | String a p', String b s' => Ascii.eqb a b && startswith p' s'
  | String _ _, EmptyString => false
  end.

(** [needle in s] *)
Fixpoint contains (needle s : string) : bool :=
  startswith needle s
  || match s with
     | EmptyString => false
     | String _ t => contains needle t
     end.

(** [s.split(sep)] for a one-character separator. *)
Fixpoint split (sep : ascii) (s : string) : list string :=
  match s with
  | EmptyString => [EmptyString]
  | String c t =>
      if Ascii.eqb c sep then EmptyString :: split sep t
      else match split sep t with
           | p :: ps => String c p :: ps
           | [] => [String c EmptyString]
           end
  end.

(** [s.replace(c, "")] for a one-character [c]. *)
Fixpoint remove (c : ascii) (s : string) : string :=
  match s with
  | EmptyString => EmptyString
  | String x t => if Ascii.eqb x c then remove c t else String x (remove c t)
  end.

(** [str(n)] for a non-negative integer. *)
Definition of_nat (n : nat) : string := NilZero.string_of_uint (Nat.to_uint n).

(** [x in l] for a list of strings. *)
Definition mem (x : string) (l : list string) : bool :=
  existsb (String.eqb x) l.

End Str.

(** ** The fragment of Python [re] used by the rule table

    Patterns are kept as their source text and compiled by [compile];
    [search] is [re.search] on the compiled form.  The fragment has
    literals, escaped punctuation, [.], [$], digit ranges [[a-b]], the
    postfix repeats [*] and [{m,n}] / [{m,}], and top-level alternation.
    [compile] answers [None] outside of it. *)

Module Re.

Inductive regex : Type :=
| Eps
| Chr (c : ascii)
| Any
| Digits (lo hi : ascii)
| Eol
| Seq (r1 r2 : regex)
| Alt (r1 r2 : regex)
| Rep (r : regex) (lo : nat) (hi : option nat).

Inductive token : Type :=
| TChr (c : ascii)
| TAny
| TEol
| TDigits (lo hi : ascii)
| TStar
| TRep (lo : nat) (hi : option nat)
| TBar.

Definition is_alnum (c : ascii) : bool := Str.isdigit c || Str.isalpha_ascii c.

Definition special (c : ascii) : bool :=
  Str.mem (String c EmptyString)
    ["("; ")"; "["; "]"; "{"; "}"; "^"; "+"; "?"; "*"; "\"].

Definition digit_val (c : ascii) : nat := Str.code c - 48.

(** Reads a possibly empty decimal numeral. *)
Fixpoint numeral (acc : option nat) (s : string) : option nat * string :=
  match s with
  | String c t =>
      if Str.isdigit c
      then numeral (Some (10 * default 0 acc + digit_val c)) t
      else (acc, s)
  | EmptyString => (acc, s)
  end.

(** The text after an opening brace: [m,n}] or [m,}]. *)
Definition bounds (s : string) : option (token * string) :=
  match numeral None s with
  | (Some lo, String "," t) =>
      match numeral None t with
      | (Some hi, String "}" u) =>
          if lo <=? hi then Some (TRep lo (Some hi), u) else None
      | (None, String "}" u) => Some (TRep lo None, u)
      | _ => None
      end
  | _ => None
  end.

Fixpoint lex (fuel : nat) (p : string) : option (list token) :=
  match p, fuel with
  | EmptyString, _ => Some []
  | _, O => None
  | String c t, S fuel =>
      if Ascii.eqb c "\" then
        match t with
        | String e u => if is_alnum e then None else cons (TChr e) <$> lex fuel u
        | EmptyString => None
        end
      else if Ascii.eqb c "." then cons TAny <$> lex fuel t
      else if Ascii.eqb c "$" then cons TEol <$> lex fuel t
      else if Ascii.eqb c "|" then cons TBar <$> lex fuel t
      else if Ascii.eqb c "*" then cons TStar <$> lex fuel t
      else if Ascii.eqb c "[" then
        match t with
        | String lo (String "-" (String hi (String "]" u))) =>
            if Str.isdigit lo && Str.isdigit hi && (Str.code lo <=? Str.code hi)
            then cons (TDigits lo hi) <$> lex fuel u else None
        | _ => None
        end
      else if Ascii.eqb c "{" then
        match bounds t with
        | Some (tok, u) => cons tok <$> lex fuel u
        | None => None
        end
      else if special c then None
      else cons (TChr c) <$> lex fuel t
  end.

Definition atom (t : token) : option regex :=
  match t with
  | TChr c => Some (Chr c)
  | TAny => Some Any
  | TDigits lo hi => Some (Digits lo hi)
  | _ => None
  end.

(** One alternative: a sequence of atoms, each with an optional repeat.
    [$] stands alone. *)
Fixpoint parse_seq (ts : list token) : option regex :=
  match ts with
  | [] => Some Eps
  | TEol :: rest => Seq Eol <$> parse_seq rest
  | t :: TStar :: rest =>
      a ← atom t; k ← parse_seq rest; Some (Seq (Rep a 0 None) k)
  | t :: TRep lo hi :: rest =>
      a ← atom t; k ← parse_seq rest; Some (Seq (Rep a lo hi) k)
  | t :: rest =>
      a ← atom t; k ← parse_seq rest; Some (Seq a k)
  end.

Fixpoint split_bar (ts : list token) : list (list token) :=
  match ts with
  | [] => [[]]
  | TBar :: rest => [] :: split_bar rest
  | t :: rest =>
      match split_bar rest with
      | a :: l => (t :: a) :: l
      | [] => [[t]]
      end
  end.

Fixpoint parse_alt (alts : list (list token)) : option regex :=
  match alts with
  | [] => None
  | [a] => parse_seq a
  | a :: rest => r1 ← parse_seq a; r2 ← parse_alt rest; Some (Alt r1 r2)
  end.

(** [re.compile(pattern)]; [None] stands for [re.error]. *)
Definition compile (pattern : string) : option regex :=
  ts ← lex (String.length pattern) pattern; parse_alt (split_bar ts).

(** Two code points are equal, up to case when [ic] (re.IGNORECASE). *)
Definition same (ic : bool) (a b : ascii) : bool :=
  if ic then Ascii.eqb (Str.lower_char a) (Str.lower_char b) else Ascii.eqb a b.

Definition newline : ascii := ascii_of_nat 10.

(** [$] without re.MULTILINE: at the end, or before a final newline. *)
Definition at_end (s : string) : bool :=
  match s with
  | EmptyString => true
  | String c EmptyString => Ascii.eqb c newline
  | _ => false
  end.

(** Exactly [n] rounds of [step]. *)
Fixpoint times (step : string → list string) (n : nat) (s : string) : list string :=
  match n with
  | O => [s]
  | S n => t ← step s; times step n t
  end.

(** At most [n] rounds of [step], each of which consumes input. *)
Fixpoint upto (step : string → list string) (n : nat) (s : string) : list string :=
  match n with
  | O => [s]
  | S n =>
      s :: (t ← filter (λ t, String.length t < String.length s) (step s);
            upto step n t)
  end.

(** [ends ic r s] lists what can remain of [s] after [r] has matched a
    prefix of it. *)
Fixpoint ends (ic : bool) (r : regex) (s : string) : list string :=
  match r with
  | Eps => [s]
  | Chr c =>
      match s with
      | String x t => if same ic x c then [t] else []
      | EmptyString => []
      end
  | Any =>
      match s with
      | String x t => if Ascii.eqb x newline then [] else [t]
      | EmptyString => []
      end
  | Digits lo hi =>
      match s with
      | String x t =>
          if (Str.code lo <=? Str.code x) && (Str.code x <=? Str.code hi)
          then [t] else []
      | EmptyString => []
      end
  | Eol => if at_end s then [s] else []
  | Seq r1 r2 => t ← ends ic r1 s; ends ic r2 t
  | Alt r1 r2 => ends ic r1 s ++ ends ic r2 s
  | Rep r lo hi =>
      t ← times (ends ic r) lo s;
      upto (ends ic r) (match hi with Some h => h - lo | None => String.length t end) t
  end.

(** A match of [r] starts somewhere in [s]. *)
Fixpoint found (ic : bool) (r : regex) (s : string) : bool :=
  match ends ic r s with
  | _ :: _ => true
  | [] => match s with
          | EmptyString => false
          | String _ t => found ic r t
          end
  end.

(** [re.search(pattern, s, flags)] as a truth value; [None] when the
    pattern does not compile. *)
Definition search (pattern s : string) (ic : bool) : option bool :=
  r ← compile pattern; Some (found ic r s).

End Re.

(** ** Rule tables *)

(** Suspicious patterns that might indicate malicious URLs. *)
Definition SUSPICIOUS_PATTERNS : list string :=
  [ "bit\.ly|goo\.gl|tinyurl\.com|ow\.ly|t\.co";
    "@";
    "\.tk$|\.ml$|\.ga$|\.cf$|\.gq$";
    "[0-9]{1,3}\.[0-9]{1,3}\.[0-9]{1,3}\.[0-9]{1,3}";
    "paypal|amazon|microsoft|google|apple.*login";
    "secure.*account|verify.*account|suspended.*account";
    "exe$|\.scr$|\.bat$|\.cmd$|\.vbs$";
    "-{10,}" ].

(** Known malicious or spam domains. *)
Definition BLOCKLIST : list string :=
  [ "malicious-example.com"; "spam-domain.tk" ].

(** Trusted domains (no pattern checks). *)
Definition WHITELIST : list string :=
  [ "github.com"; "youtube.com"; "wiz.io"; "aws.amazon.com";
    "docs.aws.amazon.com"; "owasp.org"; "cisa.gov"; "nist.gov"; "csoh.org";
    "microsoft.com"; "google.com"; "cloudflare.com"; "wikipedia.org" ].

(** ** Python values, exceptions and the object store *)

#[warnings="-register-all"]
Inductive pyval : Type :=
| PyNone
| PyBool (b : bool)
| PyInt (n : Z)
| PyStr (s : string)
| PyBytes (b : string)
| PyList (l : list pyval).

(** [bool(v)] *)
Definition truthy (v : pyval) : bool :=
  match v with
  | PyNone => false
  | PyBool b => b
  | PyInt n => negb (n =? 0)%Z
  | PyStr s => negb (String.eqb s "")
  | PyBytes b => negb (String.eqb b "")
  | PyList l => negb (length l =? 0)
  end.

(** [isinstance(v, str)] *)
Definition isinstance_str (v : pyval) : bool :=
  match v with PyStr _ => true | _ => false end.

Inductive exn : Type :=
| ValueError (msg : string)
| AttributeError (msg : string)
| ReError (msg : string).

(** [str(e)] *)
Definition exn_str (e : exn) : string :=
  match e with ValueError m | AttributeError m | ReError m => m end.

Inductive outcome (A : Type) : Type :=
| Return (a : A)
| Raise (e : exn).
Arguments Return {A} a.
Arguments Raise {A} e.

(** Address of a list object. *)
Definition loc : Type := nat.

(** The list objects allocated so far, and the two attributes of the
    checker instance, which hold references to list objects. *)
Record state : Type := State {
  heap : list (list string);
  self_warnings : loc;
  self_errors : loc
}.

(** The dictionary built by [_result]: two flags and two references. *)
Record result : Type := Result {
  safe : bool;
  warnings : loc;
  errors : loc;
  suspicious : bool
}.

(** Components of a parsed URL that the checker reads. *)
Record ParseResult : Type := {
  scheme : string;
  netloc : string
}.

Definition M (A : Type) : Type := state → outcome A * state.

#[global] Instance M_ret : MRet M := λ A a σ, (Return a, σ).
#[global] Instance M_bind : MBind M := λ A B f m σ,
  match m σ with
  | (Return a, σ') => f a σ'
  | (Raise e, σ') => (Raise e, σ')
  end.
#[global] Instance M_fmap : FMap M := λ A B f m, a ← m; mret (f a).

Definition raise {A} (e : exn) : M A := λ σ, (Raise e, σ).

(** [[]]: a new empty list object. *)
Definition new_list : M loc :=
  λ σ, (Return (length (heap σ)),
        State (heap σ ++ [[]]) (self_warnings σ) (self_errors σ)).

(** [l.append(x)] *)
Definition list_append (l : loc) (x : string) : M () :=
  λ σ, (Return (),
        State (alter (λ v, v ++ [x]) l (heap σ)) (self_warnings σ) (self_errors σ)).

Definition deref (h : list (list string)) (l : loc) : list string :=
  default [] (h !! l).

(** [len(l)] *)
Definition list_len (l : loc) : M nat :=
  λ σ, (Return (length (deref (heap σ) l)), σ).

Definition get_warnings : M loc := λ σ, (Return (self_warnings σ), σ).
Definition get_errors : M loc := λ σ, (Return (self_errors σ), σ).
Definition set_warnings (l : loc) : M () :=
  λ σ, (Return (), State (heap σ) l (self_errors σ)).
Definition set_errors (l : loc) : M () :=
  λ σ, (Return (), State (heap σ) (self_warnings σ) l).

(** [self.warnings.append(x)] and [self.errors.append(x)] *)
Definition warnings_append (x : string) : M () :=
  l ← get_warnings; list_append l x.
Definition errors_append (x : string) : M () :=
  l ← get_errors; list_append l x.

(** [for x in l: body], where [body] has no [return]. *)
Fixpoint for_each {A} (l : list A) (body : A → M ()) : M () :=
  match l with
  | [] => mret ()
  | x :: rest => body x;; for_each rest body
  end.

(** [for x in l: body], where [body] may [return r]: [Some r] then. *)
Fixpoint for_return {A R} (l : list A) (body : A → M (option R)) : M (option R) :=
  match l with
  | [] => mret None
  | x :: rest =>
      r ← body x;
      match r with
      | Some v => mret (Some v)
      | None => for_return rest body
      end
  end.

(** [url.strip()]: an attribute error on a value that is not a [str]. *)
Definition str_strip (v : pyval) : M string :=
  match v with
  | PyStr s => mret (Str.strip s)
  | _ => raise (AttributeError "object has no attribute 'strip'")
  end.

(** [re.search(pattern, s, re.IGNORECASE)], as used in a condition. *)
Definition re_search (pattern s : string) : M bool :=
  match Re.search pattern s true with
  | Some b => mret b
  | None => raise (ReError "bad pattern")
  end.

(** ** [urllib.parse.urlparse]

    The scheme and network location computed by CPython's [urlsplit]:
    leading C0 control characters and spaces are dropped, tabs and line
    breaks are removed, a scheme is split off at the first colon, and
    after [//] the network location runs up to the first of [/], [?],
    [#].  Unbalanced brackets in the network location are a [ValueError].
    (The check of the text between balanced brackets done by recent
    versions is left out; [check_url] below is defined, and its properties
    proved, for an arbitrary parser.) *)

Module Urllib.

Fixpoint lstrip_c0 (s : string) : string :=
  match s with
  | EmptyString => EmptyString
  | String c t => if Str.code c <=? 32 then lstrip_c0 t else s
  end.

Definition remove_unsafe (s : string) : string :=
  Str.remove (ascii_of_nat 10) (Str.remove (ascii_of_nat 13) (Str.remove (ascii_of_nat 9) s)).

Definition scheme_char (c : ascii) : bool :=
  Str.isalpha_ascii c || Str.isdigit c
  || Ascii.eqb c "+" || Ascii.eqb c "-" || Ascii.eqb c ".".

Fixpoint all_chars (p : ascii → bool) (s : string) : bool :=
  match s with
  | EmptyString => true
  | String c t => p c && all_chars p t
  end.

(** [s.partition(c)] when [c] occurs in [s]. *)
Fixpoint partition (c : ascii) (s : string) : option (string * string) :=
  match s with
  | EmptyString => None
  | String x t =>
      if Ascii.eqb x c then Some (EmptyString, t)
      else '(a, b) ← partition c t; Some (String x a, b)
  end.

(** The scheme and the rest of the URL. *)
Definition split_scheme (url : string) : string * string :=
  match partition ":" url with
  | Some (String c0 p, rest) =>
      if Str.isalpha_ascii c0 && all_chars scheme_char (String c0 p)
      then (Str.lower (String c0 p), rest)
      else (EmptyString, url)
  | _ => (EmptyString, url)
  end.

Definition delim (c : ascii) : bool :=
  Ascii.eqb c "/" || Ascii.eqb c "?" || Ascii.eqb c "#".

Fixpoint until_delim (s : string) : string :=
  match s with
  | EmptyString => EmptyString
  | String c t => if delim c then EmptyString else String c (until_delim t)
  end.

Definition urlparse (url : string) : exn + ParseResult :=
  let url := remove_unsafe (lstrip_c0 url) in
  let '(sch, url) := split_scheme url in
  match url with
  | String "/" (String "/" rest) =>
      let nl := until_delim rest in
      if xorb (Str.contains "[" nl) (Str.contains "]" nl)
      then inl (ValueError "Invalid IPv6 URL")
      else inr {| scheme := sch; netloc := nl |}
  | _ => inr {| scheme := sch; netloc := EmptyString |}
  end.

End Urllib.

(** ** The checker *)

Section URLSafetyChecker.

(** [urllib.parse.urlparse]: a parse result, or the exception raised. *)
Variable urlparse : string → exn + ParseResult.

(** [URLSafetyChecker.__init__] *)
Definition __init__ : M () :=
  l ← new_list; set_warnings l;;
  l ← new_list; set_errors l.

(** [URLSafetyChecker._result] *)
Definition _result (safe : bool) : M result :=
  (* safe and len(self.errors) == 0 *)
  ok ← (if safe then e ← get_errors; ne ← list_len e; mret (ne =? 0)
        else mret false);
  w ← get_warnings;
  e ← get_errors;
  w' ← get_warnings; nw ← list_len w';
  mret {| safe := ok;
          warnings := w;
          errors := e;
          suspicious := 0 <? nw |}.

(** [URLSafetyChecker.check_url] *)
Definition check_url (url : pyval) : M result :=
  l ← new_list; set_warnings l;;
  l ← new_list; set_errors l;;
  (* Basic validation *)
  if negb (truthy url) || negb (isinstance_str url) then
    errors_append "Invalid URL: empty or not a string";;
    _result false
  else
    url ← str_strip url;
    (* Parse URL *)
    match urlparse url with
    | inl e =>
        errors_append ("Failed to parse URL: " +:+ exn_str e);;
        _result false
    | inr parsed =>
        (* Check scheme *)
        if negb (Str.mem (scheme parsed) ["http"; "https"]) then
          errors_append ("Invalid scheme: " +:+ scheme parsed
                         +:+ " (only http/https allowed)");;
          _result false
        else
          (if String.eqb (scheme parsed) "http"
           then warnings_append "Uses HTTP (not HTTPS) - may be insecure"
           else mret ());;
          (* Check domain *)
          let domain := Str.lower (netloc parsed) in
          if String.eqb domain "" then
            errors_append "No domain found in URL";;
            _result false
          else
            (* Check against blocklist *)
            r ← for_return BLOCKLIST (λ blocked,
                  if Str.contains blocked domain then
                    errors_append ("Domain '" +:+ domain +:+ "' is on blocklist");;
                    Some <$> _result false
                  else mret None);
            match r with
            | Some d => mret d
            | None =>
                (* Check if whitelisted (skip pattern checks) *)
                let is_whitelisted :=
                  existsb (λ whitelist, Str.contains whitelist domain) WHITELIST in
                (if negb is_whitelisted then
                   (* Check suspicious patterns *)
                   for_each SUSPICIOUS_PATTERNS (λ pattern,
                     b ← re_search pattern url;
                     if b : bool then
                       warnings_append ("Suspicious pattern detected: " +:+ pattern)
                     else mret ());;
                   (* Check domain length *)
                   (if 50 <? String.length domain then
                      warnings_append ("Unusually long domain: "
                                       +:+ Str.of_nat (String.length domain)
                                       +:+ " characters")
                    else mret ());;
                   (* Check for excessive subdomains *)
                   let parts := Str.split "." domain in
                   if 5 <? length parts then
                     warnings_append ("Excessive subdomains: "
                                      +:+ Str.of_nat (length parts) +:+ " levels")
                   else mret ()
                 else mret ());;
                (* No critical errors *)
                _result true
            end
    end.

(** [URLSafetyChecker.check_batch]; [results] is the local list. *)
Fixpoint check_batch_loop (results : list (pyval * result)) (urls : list pyval)
  : M (list (pyval * result)) :=
  match urls with
  | [] => mret results
  | url :: rest =>
      r ← check_url url;
      check_batch_loop (results ++ [(url, r)]) rest
  end.

Definition check_batch (urls : list pyval) : M (list (pyval * result)) :=
  check_batch_loop [] urls.

End URLSafetyChecker.

(** ** What a caller sees *)

(** A verdict: the returned dictionary with its two lists read from the store. *)
Record Verdict : Type := {
  v_safe : bool;
  v_suspicious : bool;
  v_warnings : list string;
  v_errors : list string
}.

Definition view (σ : state) (d : result) : Verdict :=
  {| v_safe := safe d;
     v_suspicious := suspicious d;
     v_warnings := deref (heap σ) (warnings d);
     v_errors := deref (heap σ) (errors d) |}.

(** [checker.check_url(url)] on a checker in state [σ], as seen on return. *)
Definition classify (urlparse : string → exn + ParseResult)
    (σ : state) (url : pyval) : outcome Verdict :=
  match check_url urlparse url σ with
  | (Return d, σ') => Return (view σ' d)
  | (Raise e, _) => Raise e
  end.

(** [checker.check_batch(urls)], every returned dictionary read on return. *)
Definition classify_batch (urlparse : string → exn + ParseResult)
    (σ : state) (urls : list pyval) : outcome (list (pyval * Verdict)) :=
  match check_batch urlparse urls σ with
  | (Return rs, σ') => Return (map (λ r : pyval * result, (r.1, view σ' r.2)) rs)
  | (Raise e, _) => Raise e
  end.

(** [URLSafetyChecker()]: a new checker in an empty store. *)
Definition URLSafetyChecker : state := (__init__ (State [] 0 0)).2.

(** ** The verdict as a function of the input

    What [check_url] records, written without the store: the flag handed
    to [_result], the warnings and the errors.  [check_url_run] below
    shows that this is what [check_url] computes. *)

Definition matched (pattern url : string) : bool :=
  match Re.compile pattern with
  | Some r => Re.found true r url
  | None => false
  end.

Definition pattern_warnings (patterns : list string) (url : string) : list string :=
  pattern ← patterns;
  if matched pattern url then ["Suspicious pattern detected: " +:+ pattern] else [].

Definition length_warnings (domain : string) : list string :=
  if 50 <? String.length domain
  then ["Unusually long domain: " +:+ Str.of_nat (String.length domain) +:+ " characters"]
  else [].

Definition subdomain_warnings (domain : string) : list string :=
  if 5 <? length (Str.split "." domain)
  then ["Excessive subdomains: " +:+ Str.of_nat (length (Str.split "." domain)) +:+ " levels"]
  else [].

Definition scan_warnings (url domain : string) : list string :=
  pattern_warnings SUSPICIOUS_PATTERNS url
  ++ length_warnings domain ++ subdomain_warnings domain.

Definition http_warnings (sch : string) : list string :=
  if String.eqb sch "http" then ["Uses HTTP (not HTTPS) - may be insecure"] else [].

Definition blocked_in (domain : string) : bool :=
  existsb (λ blocked, Str.contains blocked domain) BLOCKLIST.

Definition whitelisted (domain : string) : bool :=
  existsb (λ whitelist, Str.contains whitelist domain) WHITELIST.

Section Issues.

Variable urlparse : string → exn + ParseResult.

Definition issues_of_str (s : string) : bool * list string * list string :=
  let url := Str.strip s in
  match urlparse url with
  | inl e => (false, [], ["Failed to parse URL: " +:+ exn_str e])
  | inr parsed =>
      if negb (Str.mem (scheme parsed) ["http"; "https"]) then
        (false, [],
         ["Invalid scheme: " +:+ scheme parsed +:+ " (only http/https allowed)"])
      else
        let W := http_warnings (scheme parsed) in
        let domain := Str.lower (netloc parsed) in
        if String.eqb domain "" then (false, W, ["No domain found in URL"])
        else if blocked_in domain then
          (false, W, ["Domain '" +:+ domain +:+ "' is on blocklist"])
        else if negb (whitelisted domain) then
          (true, W ++ scan_warnings url domain, [])
        else (true, W, [])
  end.

Definition issues_of (url : pyval) : bool * list string * list string :=
  match url with
  | PyStr s =>
      if String.eqb s "" then (false, [], ["Invalid URL: empty or not a string"])
      else issues_of_str s
  | _ => (false, [], ["Invalid URL: empty or not a string"])
  end.

End Issues.

(** The store after [check_url] has put its two lists behind [h]. *)
Definition st (h : list (list string)) (W E : list string) : state :=
  State (h ++ [W; E]) (length h) (S (length h)).

(** The dictionary [_result safe] builds in [st h W E]. *)
Definition dict (h : list (list string)) (safe : bool) (W E : list string) : result :=
  Result (safe && (length E =? 0)) (length h) (S (length h)) (0 <? length W).

Definition verdict (safe : bool) (W E : list string) : Verdict :=
  {| v_safe := safe && (length E =? 0);
     v_suspicious := 0 <? length W;
     v_warnings := W;
     v_errors := E |}.

(** ** More [str] methods, used to state what the checks detect *)

Module StrMore.

(** [s.count(c)] for a one-character [c]. *)
Fixpoint count (c : ascii) (s : string) : nat :=
  match s with
  | EmptyString => 0
  | String x t => (if Ascii.eqb x c then 1 else 0) + count c t
  end.

(** [s.endswith(suffix)] *)
Fixpoint endswith (suffix s : string) : bool :=
  String.eqb suffix s
  || match s with
     | EmptyString => false
     | String _ t => endswith suffix t
     end.

(** A code point is caseless when nothing else lower-cases to it. *)
Definition caseless (c : ascii) : Prop :=
  ∀ x, Ascii.eqb c (Str.lower_char x) = Ascii.eqb c x.

(** [c * n] for a one-character [c]. *)
Fixpoint mul (c : ascii) (n : nat) : string :=
  match n with
  | O => EmptyString
  | S n => String c (mul c n)
  end.

(** [s[n:]] *)
Fixpoint drop (n : nat) (s : string) : string :=
  match n, s with
  | S n, String _ t => drop n t
  | _, _ => s
  end.

(** One to three decimal digits. *)
Definition digit_group (g : string) : Prop :=
  Urllib.all_chars Str.isdigit g = true
  ∧ 1 ≤ String.length g ∧ String.length g ≤ 3.

End StrMore.

(** ** Regular expressions of the rule table, by their parts *)

Module ReMore.
Import Re.

Definition nonempty {A} (l : list A) : bool :=
  match l with [] => false | _ :: _ => true end.

(** The literal [w] followed by [k]. *)
Fixpoint word_then (w : string) (k : regex) : regex :=
  match w with
  | EmptyString => k
  | String c w' => Seq (Chr c) (word_then w' k)
  end.

Definition word (w : string) : regex := word_then w Eps.

(** [r1|r2|...] *)
Fixpoint alts (rs : list regex) : regex :=
  match rs with
  | [] => Eps
  | [r] => r
  | r :: rs' => Alt r (alts rs')
  end.


(** The one-character string holding a line feed. *)
Definition nl : string := String newline EmptyString.

(** [[0-9]{1,3}\.[0-9]{1,3}\.[0-9]{1,3}\.[0-9]{1,3}] *)
Definition address : regex :=
  Seq (Rep (Digits "0" "9") 1 (Some 3)) (Seq (Chr ".")
  (Seq (Rep (Digits "0" "9") 1 (Some 3)) (Seq (Chr ".")
  (Seq (Rep (Digits "0" "9") 1 (Some 3)) (Seq (Chr ".")
  (Seq (Rep (Digits "0" "9") 1 (Some 3)) Eps)))))).

End ReMore.

(** ** Reaching the pattern scan *)

(** The string [s] gets as far as the pattern scan of [check_url]: it is
    not empty, its stripped form parses to [parsed] with scheme http or
    https and a non-empty host, and the lower-cased host holds no
    blocklist entry and no whitelist entry. *)
Definition scanned (urlparse : string → exn + ParseResult)
    (s : string) (parsed : ParseResult) : Prop :=
  s ≠ EmptyString
  ∧ urlparse (Str.strip s) = inr parsed
  ∧ Str.mem (scheme parsed) ["http"; "https"] = true
  ∧ Str.lower (netloc parsed) ≠ EmptyString
  ∧ blocked_in (Str.lower (netloc parsed)) = false
  ∧ whitelisted (Str.lower (netloc parsed)) = false.

(** ** Standard output

    What a program writes is kept as the list of the texts written, in
    order.  Signs of the program's literals that lie outside the modelled
    range of code points appear in them as their UTF-8 bytes. *)

Module Stdout.

Definition nl : string := String (ascii_of_nat 10) EmptyString.

(** [print(text)] *)
Definition print (text : string) : list string := [text +:+ nl].

End Stdout.

(** ** tools/check_all_site_urls.py: the URLs of a page *)

Module SiteUrls.

(** The double quote. *)
Definition dq : string := String (ascii_of_nat 34) EmptyString.

Definition href_pattern : string :=
  "<a[^>]+href=[" +:+ dq +:+ "\'](https?://[^" +:+ dq +:+ "\']+)[" +:+ dq +:+ "\']".

Definition src_pattern : string :=
  "<(?:img|script|iframe|source|video|audio)[^>]+src=[" +:+ dq
  +:+ "\'](https?://[^" +:+ dq +:+ "\']+)[" +:+ dq +:+ "\']".

Definition url_pattern : string :=
  "https?://[^\s<>" +:+ dq +:+ "\']+[^\s<>" +:+ dq +:+ "\'.,;:!?)]".

(** Remove duplicates while preserving order: the loop over [urls], with
    the set [seen] and the list [unique_urls]. *)
Fixpoint unique_loop (urls : list string) (seen : gset string)
    (unique_urls : list string) : list string :=
  match urls with
  | [] => unique_urls
  | url :: rest =>
      if decide (url ∈ seen) then unique_loop rest seen unique_urls
      else unique_loop rest ({[url]} ∪ seen) (unique_urls ++ [url])
  end.

Section Extract.

(** [re.findall(pattern, content)] *)
Variable findall : string → string → list string.

(** [extract_urls_from_html(file_path)], given what opening and reading
    the file yields: its content, or the text of the exception raised.
    The result is what is printed and the list returned. *)
Definition extract_urls_from_html (file_path : string) (file : string + string)
  : list string * list string :=
  let '(out, urls) :=
    match file with
    | inr content =>
        ([], findall href_pattern content
             ++ findall src_pattern content
             ++ findall url_pattern content)
    | inl e =>
        (Stdout.print ("  ⚠️  Error reading " +:+ file_path +:+ ": " +:+ e), [])
    end in
  (out, unique_loop urls ∅ []).

End Extract.

End SiteUrls.

(** ** tools/check_url_safety.py: the command line *)

Module Cli.
Import Stdout.

(** How a run of the tool ends: with an exit status, or with an exception
    that nothing catches (named by its class). *)
Inductive ending : Type :=
| Exit (code : nat)
| Uncaught (name : string).

(** What [input] meets on standard input: a line, or an interrupt from
    the keyboard.  The end of the list is the end of the input. *)
Inductive event : Type :=
| Line (s : string)
| Interrupt.

(** What opening a file and reading its lines yields. *)
Inductive file : Type :=
| Lines (lines : list string)
| NotFound
| Fails (name : string).

Definition exn_name (e : exn) : string :=
  match e with
  | ValueError _ => "ValueError"
  | AttributeError _ => "AttributeError"
  | ReError _ => "re.error"
  end.

(** The text of a [str] value (the tool handles no other). *)
Definition text_of (v : pyval) : string :=
  match v with PyStr s => s | _ => EmptyString end.

(** [print_result(url, result, verbose)]: what it prints, the lists of
    [result] being read in the store [σ]. *)
Definition print_result (σ : state) (url : string) (result : result) (verbose : bool)
  : list string :=
  let status := if safe result then "✅ SAFE" else "❌ UNSAFE" in
  let status :=
    if suspicious result && safe result then "⚠️  SUSPICIOUS (but not blocked)" else status in
  print (nl +:+ status +:+ ": " +:+ url)
  ++ (match deref (heap σ) (errors result) with
      | [] => []
      | errs => print "  ERRORS:" ++ (error ← errs; print ("    • " +:+ error))
      end)
  ++ (match deref (heap σ) (warnings result) with
      | [] => []
      | warns =>
          if verbose
          then print "  WARNINGS:" ++ (warning ← warns; print ("    • " +:+ warning))
          else []
      end).

(** The advice printed after a result in single and interactive mode. *)
Definition advice (result : result) : list string :=
  if negb (safe result) then
    print (nl +:+ "⛔ This URL should NOT be added to chat-resources.html")
  else if suspicious result then
    print (nl +:+ "⚠️  Review this URL carefully before adding")
  else
    print (nl +:+ "✅ This URL appears safe to add").

Section Tool.

Variable urlparse : string → exn + ParseResult.

(** The loop of [interactive_mode]: what is written, and the exception
    that leaves the function, if any.  [input] writes its prompt first;
    at the end of the input it raises [EOFError], which is not caught. *)
Fixpoint interactive_loop (stdin : list event) (σ : state)
  : list string * option string :=
  let prompt := nl +:+ "URL: " in
  match stdin with
  | [] => ([prompt], Some "EOFError")
  | Interrupt :: _ => ([prompt] ++ print (nl +:+ nl +:+ "Exiting..."), None)
  | Line s :: rest =>
      let url := Str.strip s in
      if Str.mem (Str.lower url) ["quit"; "exit"; "q"] then ([prompt], None)
      else if String.eqb url "" then
        let '(out, r) := interactive_loop rest σ in (prompt :: out, r)
      else
        match check_url urlparse (PyStr url) σ with
        | (Raise e, _) => ([prompt], Some (exn_name e))
        | (Return result, σ') =>
            let '(out, r) := interactive_loop rest σ' in
            ([prompt] ++ print_result σ' url result true ++ advice result ++ out, r)
        end
  end.

(** [interactive_mode()], called in the store [σ]. *)
Definition interactive_mode (stdin : list event) (σ : state)
  : list string * option string :=
  let '(out, r) := interactive_loop stdin (__init__ σ).2 in
  (print (StrMore.mul "=" 60)
   ++ print "CSOH URL Safety Checker - Interactive Mode"
   ++ print (StrMore.mul "=" 60)
   ++ print "Enter URLs to check (one per line)"
   ++ print "Type 'quit' or press Ctrl+C to exit"
   ++ print (StrMore.mul "=" 60)
   ++ out, r).

(** [main()] with [sys.argv], the files and the standard input given:
    what is written to standard output, and how the run ends. *)
Definition main (argv : list string) (fs : string → file) (stdin : list event)
  : list string * ending :=
  match argv with
  | [] | [_] =>
      (print "Usage:"
       ++ print "  Single URL:    python3 tools/check_url_safety.py <url>"
       ++ print "  Batch file:    python3 tools/check_url_safety.py --batch urls.txt"
       ++ print "  Interactive:   python3 tools/check_url_safety.py --interactive", Exit 1)
  | _ :: arg1 :: rest =>
      let σ := URLSafetyChecker in
      (* Interactive mode *)
      if String.eqb arg1 "--interactive" then
        let '(out, r) := interactive_mode stdin σ in
        (out, match r with None => Exit 0 | Some name => Uncaught name end)
      (* Batch mode *)
      else if String.eqb arg1 "--batch" then
        match rest with
        | [] => (print "Error: --batch requires a filename", Exit 1)
        | filename :: _ =>
            match fs filename with
            | NotFound =>
                (print ("Error: File '" +:+ filename +:+ "' not found"), Exit 1)
            | Fails name => ([], Uncaught name)
            | Lines lines =>
                let urls :=
                  Str.strip <$> List.filter
                                  (λ line, negb (String.eqb (Str.strip line) "")) lines in
                match check_batch urlparse (PyStr <$> urls) σ with
                | (Raise e, _) => ([], Uncaught (exn_name e))
                | (Return results, σ') =>
                    let safe_count :=
                      length (List.filter (λ ur : pyval * result, safe ur.2) results) in
                    let unsafe_count :=
                      length (List.filter (λ ur : pyval * result, negb (safe ur.2)) results) in
                    let suspicious_count :=
                      length (List.filter
                                (λ ur : pyval * result, suspicious ur.2 && safe ur.2)
                                results) in
                    let out :=
                      print (nl +:+ StrMore.mul "=" 60)
                      ++ print ("Checked " +:+ Str.of_nat (length urls) +:+ " URLs")
                      ++ print ("  ✅ Safe: " +:+ Str.of_nat safe_count)
                      ++ print ("  ⚠️  Suspicious: " +:+ Str.of_nat suspicious_count)
                      ++ print ("  ❌ Unsafe: " +:+ Str.of_nat unsafe_count)
                      ++ print (StrMore.mul "=" 60 +:+ nl)
                      ++ (ur ← results; print_result σ' (text_of ur.1) ur.2 false) in
                    if 0 <? unsafe_count then
                      (out ++ print (nl +:+ "⛔ " +:+ Str.of_nat unsafe_count
                                     +:+ " URL(s) should NOT be added"), Exit 1)
                    else (out, Exit 0)
                end
            end
        end
      (* Single URL mode *)
      else
        let url := arg1 in
        match check_url urlparse (PyStr url) σ with
        | (Raise e, _) => ([], Uncaught (exn_name e))
        | (Return result, σ') =>
            let out := print_result σ' url result true in
            if negb (safe result) then
              (out ++ print (nl +:+ "⛔ This URL should NOT be added to chat-resources.html"), Exit 1)
            else if suspicious result then
              (out ++ print (nl +:+ "⚠️  Review this URL carefully before adding"), Exit 0)
            else
              (out ++ print (nl +:+ "✅ This URL appears safe to add"), Exit 0)
        end
  end.

End Tool.

(** An event that ends an interactive session: an interrupt, or a line
    that reads quit, exit or q once stripped and lower-cased. *)
Definition stops (e : event) : bool :=
  match e with
  | Interrupt => true
  | Line s => Str.mem (Str.lower (Str.strip s)) ["quit"; "exit"; "q"]
  end.

End Cli.

(** ** tools/check_existing_urls.py *)

Module ExistingUrls.
Import Stdout Cli.

Definition pattern : string :=
  "<a href=" +:+ SiteUrls.dq +:+ "([^" +:+ SiteUrls.dq +:+ "]+)" +:+ SiteUrls.dq
  +:+ " class=" +:+ SiteUrls.dq +:+ "card-link" +:+ SiteUrls.dq.

(** Categorize results: the loop over [results] with its three lists. *)
Fixpoint categorize (results : list (pyval * result))
    (safe_urls suspicious_urls unsafe_urls : list (pyval * result))
  : list (pyval * result) * list (pyval * result) * list (pyval * result) :=
  match results with
  | [] => (safe_urls, suspicious_urls, unsafe_urls)
  | (url, result) :: rest =>
      if negb (safe result) then
        categorize rest safe_urls suspicious_urls (unsafe_urls ++ [(url, result)])
      else if suspicious result then
        categorize rest safe_urls (suspicious_urls ++ [(url, result)]) unsafe_urls
      else
        categorize rest (safe_urls ++ [(url, result)]) suspicious_urls unsafe_urls
  end.

Section Script.

(** [re.findall(pattern, content)] *)
Variable findall : string → string → list string.
Variable urlparse : string → exn + ParseResult.

(** The script, given what reading chat-resources.html yields: its
    content, or the class of the exception raised (which nothing
    catches). *)
Definition script (file : string + string) : list string * ending :=
  match file with
  | inl name => ([], Uncaught name)
  | inr content =>
      let urls := findall pattern content in
      let head :=
        print ("Found " +:+ Str.of_nat (length urls) +:+ " URLs in chat-resources.html" +:+ nl)
        ++ print ("Running safety checks..." +:+ nl)
        ++ print (StrMore.mul "=" 70) in
      match check_batch urlparse (PyStr <$> urls) URLSafetyChecker with
      | (Raise e, _) => (head, Uncaught (exn_name e))
      | (Return results, σ) =>
          let '(safe_urls, suspicious_urls, unsafe_urls) :=
            categorize results [] [] [] in
          let summary :=
            print (nl +:+ StrMore.mul "=" 70)
            ++ print ("SUMMARY")
            ++ print (StrMore.mul "=" 70)
            ++ print ("Total URLs checked: " +:+ Str.of_nat (length urls))
            ++ print ("  ✅ Safe:        " +:+ Str.of_nat (length safe_urls))
            ++ print ("  ⚠️  Suspicious:  " +:+ Str.of_nat (length suspicious_urls))
            ++ print ("  ❌ Unsafe:      " +:+ Str.of_nat (length unsafe_urls))
            ++ print (StrMore.mul "=" 70 +:+ nl) in
          (* Show unsafe URLs *)
          let shown_unsafe :=
            match unsafe_urls with
            | [] => []
            | _ :: _ =>
                print (nl +:+ "❌ UNSAFE URLS (" +:+ Str.of_nat (length unsafe_urls) +:+ "):")
                ++ print (StrMore.mul "=" 70)
                ++ (ur ← unsafe_urls;
                    print (nl +:+ "🚫 " +:+ text_of ur.1)
                    ++ (error ← deref (heap σ) (errors ur.2);
                        print ("   ERROR: " +:+ error)))
            end in
          (* Show suspicious URLs *)
          let shown_suspicious :=
            match suspicious_urls with
            | [] => []
            | _ :: _ =>
                print (nl +:+ "⚠️  SUSPICIOUS URLS (" +:+ Str.of_nat (length suspicious_urls) +:+ "):")
                ++ print (StrMore.mul "=" 70)
                ++ (ur ← suspicious_urls;
                    print (nl +:+ "⚠️  " +:+ text_of ur.1)
                    ++ (warning ← deref (heap σ) (warnings ur.2);
                        print ("   • " +:+ warning)))
            end in
          (* Show count of safe URLs *)
          let shown_safe :=
            match safe_urls with
            | [] => []
            | _ :: _ => print (nl +:+ "✅ SAFE URLS: " +:+ Str.of_nat (length safe_urls) +:+ " (not listed)")
            end in
          let out := head ++ summary ++ shown_unsafe ++ shown_suspicious ++ shown_safe in
          (* Exit with error if any unsafe URLs found *)
          match unsafe_urls with
          | _ :: _ =>
              (out
               ++ print (nl +:+ StrMore.mul "=" 70)
               ++ print ("⛔ ACTION REQUIRED: " +:+ Str.of_nat (length unsafe_urls) +:+ " unsafe URL(s) found!")
               ++ print (StrMore.mul "=" 70), Exit 1)
          | [] =>
              (out
               ++ match suspicious_urls with
                  | [] => []
                  | _ :: _ =>
                      print (nl +:+ StrMore.mul "=" 70)
                      ++ print ("⚠️  REVIEW RECOMMENDED: " +:+ Str.of_nat (length suspicious_urls) +:+ " suspicious URL(s) found")
                      ++ print (StrMore.mul "=" 70)
                  end
               ++ print (nl +:+ "✅ All URLs passed safety checks (some may need review)"), Exit 0)
          end
      end
  end.

End Script.

End ExistingUrls.

(** ** tools/check_all_site_urls.py: the site-wide check *)

Module SiteCheck.
Import Stdout Cli.

(** An HTML file of the site: its path, its name, and what opening and
    reading it yields (its content, or the text of the exception
    raised). *)
Record html_file : Type := {
  path : string;
  name : string;
  content : string + string
}.

(** [all_results]: the entries [(filename, url, result)] under its keys
    safe, suspicious and unsafe. *)
Record site_results : Type := {
  all_safe : list (string * string * result);
  all_suspicious : list (string * string * result);
  all_unsafe : list (string * string * result)
}.

(** A value of [file_results]: the entries [(url, result)] under its keys
    safe, suspicious and unsafe, and the number under total. *)
Record file_result : Type := {
  fr_safe : list (string * result);
  fr_suspicious : list (string * result);
  fr_unsafe : list (string * result);
  fr_total : nat
}.

(** The truth value of a list. *)
Definition filled {A} (l : list A) : bool :=
  match l with [] => false | _ :: _ => true end.

(** A dict with [str] keys, as the list of its items in insertion order:
    [d[key] = value] and [d[key]]. *)
Fixpoint dict_set {V} (key : string) (value : V) (d : list (string * V))
  : list (string * V) :=
  match d with
  | [] => [(key, value)]
  | (k, v) :: rest =>
      if String.eqb k key then (k, value) :: rest
      else (k, v) :: dict_set key value rest
  end.

Fixpoint dict_get {V} (key : string) (d : list (string * V)) : option V :=
  match d with
  | [] => None
  | (k, v) :: rest => if String.eqb k key then Some v else dict_get key rest
  end.

(** [sorted] on a list of [str], which compare by code points. *)
Fixpoint insert_sorted (s : string) (l : list string) : list string :=
  match l with
  | [] => [s]
  | x :: rest => if String.leb x s then x :: insert_sorted s rest else s :: l
  end.

Definition sorted (l : list string) : list string :=
  foldl (λ acc s, insert_sorted s acc) [] l.

Section Main.

(** [re.findall(pattern, content)] *)
Variable findall : string → string → list string.
Variable urlparse : string → exn + ParseResult.
(** [f"{k/total_urls*100:.1f}"], for [total_urls] other than 0 *)
Variable percent : nat → nat → string.

(** The loop over the [urls] of one file, with the three lists of the
    file and [all_results]. *)
Fixpoint check_urls (filename : string) (urls : list string)
    (file_safe file_suspicious file_unsafe : list (string * result))
    (all_results : site_results)
  : M (list (string * result) * list (string * result) * list (string * result)
       * site_results) :=
  match urls with
  | [] => mret (file_safe, file_suspicious, file_unsafe, all_results)
  | url :: rest =>
      result ← check_url urlparse (PyStr url);
      if negb (safe result) : bool then
        (* Unsafe - has errors *)
        check_urls filename rest file_safe file_suspicious
          (file_unsafe ++ [(url, result)])
          {| all_safe := all_safe all_results;
             all_suspicious := all_suspicious all_results;
             all_unsafe := all_unsafe all_results ++ [(filename, url, result)] |}
      else if suspicious result : bool then
        (* Safe but suspicious - has warnings *)
        check_urls filename rest file_safe
          (file_suspicious ++ [(url, result)]) file_unsafe
          {| all_safe := all_safe all_results;
             all_suspicious := all_suspicious all_results ++ [(filename, url, result)];
             all_unsafe := all_unsafe all_results |}
      else
        (* Safe - no issues *)
        check_urls filename rest
          (file_safe ++ [(url, result)]) file_suspicious file_unsafe
          {| all_safe := all_safe all_results ++ [(filename, url, result)];
             all_suspicious := all_suspicious all_results;
             all_unsafe := all_unsafe all_results |}
  end.

(** Check each HTML file: what is printed, and either the class of an
    exception that leaves the loop or the store, [all_results] and
    [file_results] after it. *)
Fixpoint check_files (html_files : list html_file) (σ : state)
    (all_results : site_results) (file_results : list (string * file_result))
  : list string
    * (string + state * site_results * list (string * file_result)) :=
  match html_files with
  | [] => ([], inr (σ, all_results, file_results))
  | html_file :: rest =>
      let '(read, urls) :=
        SiteUrls.extract_urls_from_html findall (path html_file) (content html_file) in
      let checking := print ("📄 Checking: " +:+ name html_file) ++ read in
      match urls with
      | [] =>
          let '(out, r) := check_files rest σ all_results file_results in
          (checking ++ print ("   No URLs found" +:+ nl) ++ out, r)
      | _ :: _ =>
          let found := print ("   Found " +:+ Str.of_nat (length urls) +:+ " URL(s)") in
          match check_urls (name html_file) urls [] [] [] all_results σ with
          | (Raise e, _) => (checking ++ found, inl (exn_name e))
          | (Return (file_safe, file_suspicious, file_unsafe, all_results), σ) =>
              let file_results :=
                dict_set (name html_file)
                  {| fr_safe := file_safe;
                     fr_suspicious := file_suspicious;
                     fr_unsafe := file_unsafe;
                     fr_total := length urls |} file_results in
              let counts :=
                print ("   ✅ Safe: " +:+ Str.of_nat (length file_safe))
                ++ (if filled file_suspicious
                    then print ("   ⚠️  Suspicious: " +:+ Str.of_nat (length file_suspicious))
                    else [])
                ++ (if filled file_unsafe
                    then print ("   ❌ Unsafe: " +:+ Str.of_nat (length file_unsafe))
                    else [])
                ++ print EmptyString in
              let '(out, r) := check_files rest σ all_results file_results in
              (checking ++ found ++ counts ++ out, r)
          end
      end
  end.

(** Detailed results by file. *)
Definition detailed (σ : state) (file_results : list (string * file_result))
  : list string :=
  if existsb (λ f : string * file_result,
                filled (fr_suspicious f.2) || filled (fr_unsafe f.2)) file_results
  then
    print (StrMore.mul "=" 80)
    ++ print ("DETAILED RESULTS BY FILE")
    ++ print (StrMore.mul "=" 80)
    ++ print EmptyString
    ++ (filename ← sorted (fst <$> file_results);
        match dict_get filename file_results with
        | None => []
        | Some results =>
            if filled (fr_suspicious results) || filled (fr_unsafe results) then
              print ("📄 " +:+ filename)
              ++ print ("   Total URLs: " +:+ Str.of_nat (fr_total results))
              ++ print EmptyString
              ++ (if filled (fr_unsafe results) then
                    print ("   ❌ UNSAFE URLs:")
                    ++ (ur ← fr_unsafe results;
                        let url := ur.1 in
                        print ("      • " +:+ url)
                        ++ (reason ← deref (heap σ) (errors ur.2);
                            print ("        - " +:+ reason)))
                    ++ print EmptyString
                  else [])
              ++ (if filled (fr_suspicious results) then
                    print ("   ⚠️  SUSPICIOUS URLs:")
                    ++ (ur ← fr_suspicious results;
                        let url := ur.1 in
                        print ("      • " +:+ url)
                        ++ (reason ← deref (heap σ) (warnings ur.2);
                            print ("        - " +:+ reason)))
                    ++ print EmptyString
                  else [])
            else []
        end)
  else [].

(** [main()], given the HTML files of the site in the order of
    [sorted(workspace_root.glob('*.html'))]: what is printed, and the
    status [exit] is called with or the exception that nothing catches. *)
Definition main (html_files : list html_file) : list string * ending :=
  let head :=
    print (StrMore.mul "=" 80)
    ++ print ("COMPREHENSIVE SITE-WIDE URL SAFETY CHECK")
    ++ print (StrMore.mul "=" 80)
    ++ print EmptyString in
  match check_files html_files URLSafetyChecker
          {| all_safe := []; all_suspicious := []; all_unsafe := [] |} [] with
  | (out, inl name) => (head ++ out, Uncaught name)
  | (out, inr (σ, all_results, file_results)) =>
      (* Print summary *)
      let total_urls :=
        length (all_safe all_results) + length (all_suspicious all_results)
        + length (all_unsafe all_results) in
      let summary :=
        print (StrMore.mul "=" 80)
        ++ print ("SUMMARY")
        ++ print (StrMore.mul "=" 80)
        ++ print EmptyString
        ++ print ("Total HTML files scanned: " +:+ Str.of_nat (length html_files))
        ++ print ("Total URLs checked: " +:+ Str.of_nat total_urls)
        ++ print EmptyString in
      if total_urls =? 0 then (head ++ out ++ summary, Uncaught "ZeroDivisionError")
      else
        let shares :=
          print ("  ✅ Safe:        " +:+ Str.of_nat (length (all_safe all_results)) +:+ " (" +:+ percent (length (all_safe all_results)) total_urls +:+ "%)")
          ++ print ("  ⚠️  Suspicious:  " +:+ Str.of_nat (length (all_suspicious all_results)) +:+ " (" +:+ percent (length (all_suspicious all_results)) total_urls +:+ "%)")
          ++ print ("  ❌ Unsafe:      " +:+ Str.of_nat (length (all_unsafe all_results)) +:+ " (" +:+ percent (length (all_unsafe all_results)) total_urls +:+ "%)")
          ++ print EmptyString in
        (* Print all suspicious URLs summary *)
        let all_suspicious_urls :=
          if filled (all_suspicious all_results) then
            print (StrMore.mul "=" 80)
            ++ print ("⚠️  SUSPICIOUS URLS (" +:+ Str.of_nat (length (all_suspicious all_results)) +:+ ")")
            ++ print (StrMore.mul "=" 80)
            ++ print EmptyString
            ++ (fur ← all_suspicious all_results;
                let filename := fur.1.1 in
                let url := fur.1.2 in
                print ("📄 " +:+ filename)
                ++ print ("   " +:+ url)
                ++ (reason ← deref (heap σ) (warnings fur.2);
                    print ("   - " +:+ reason))
                ++ print EmptyString)
          else [] in
        (* Print all unsafe URLs summary *)
        let all_unsafe_urls :=
          if filled (all_unsafe all_results) then
            print (StrMore.mul "=" 80)
            ++ print ("❌ UNSAFE URLS (" +:+ Str.of_nat (length (all_unsafe all_results)) +:+ ")")
            ++ print (StrMore.mul "=" 80)
            ++ print EmptyString
            ++ (fur ← all_unsafe all_results;
                let filename := fur.1.1 in
                let url := fur.1.2 in
                print ("📄 " +:+ filename)
                ++ print ("   " +:+ url)
                ++ (reason ← deref (heap σ) (errors fur.2);
                    print ("   - " +:+ reason))
                ++ print EmptyString)
          else [] in
        let out :=
          head ++ out ++ summary ++ shares ++ detailed σ file_results
          ++ all_suspicious_urls ++ all_unsafe_urls
          ++ print (StrMore.mul "=" 80) in
        (* Exit with error code if unsafe URLs found *)
        if filled (all_unsafe all_results) then
          (out ++ print (nl +:+ "❌ FAILED: Unsafe URLs detected"), Exit 1)
        else
          (out ++ print (nl +:+ "✅ PASSED: No unsafe URLs detected"), Exit 0)
  end.

(** The URLs the loop of [main] checks: those of every file, in order. *)
Definition site_urls (html_files : list html_file) : list string :=
  html_file ← html_files;
  (SiteUrls.extract_urls_from_html findall (path html_file) (content html_file)).2.

End Main.

End SiteCheck.

(** * Properties *)

(** ** Strings *)

Module StrFacts.
Import Str.

Lemma rstrip_idem s : rstrip (rstrip s) = rstrip s.
Proof.
  induction s as [|c t IH]; [done|].
  simpl. destruct (rstrip t) as [|d u] eqn:Ht.
  - destruct (isspace c) eqn:Hc; [done|]. simpl. by rewrite Hc.
  - change (rstrip (String c (String d u))) with
      (match rstrip (String d u) with
       | EmptyString => if isspace c then EmptyString else String c EmptyString
       | t' => String c t'
       end).
    by rewrite IH.
Qed.

Lemma lstrip_head s :
  match lstrip s with
  | EmptyString => True
  | String c _ => isspace c = false
  end.
Proof.
  induction s as [|c t IH]; [done|].
  simpl. destruct (isspace c) eqn:Hc; [done|]. simpl. done.
Qed.

Lemma rstrip_head c t : isspace c = false → ∃ u, rstrip (String c t) = String c u.
Proof.
  intros Hc. simpl. destruct (rstrip t); rewrite ?Hc; eauto.
Qed.

Lemma lstrip_rstrip_lstrip s : lstrip (rstrip (lstrip s)) = rstrip (lstrip s).
Proof.
  pose proof (lstrip_head s) as H.
  destruct (lstrip s) as [|c t]; [done|].
  destruct (rstrip_head c t H) as [u ->]. simpl. by rewrite H.
Qed.

(** Stripping a stripped string changes nothing. *)
Lemma strip_idem s : strip (strip s) = strip s.
Proof. unfold strip. by rewrite lstrip_rstrip_lstrip, rstrip_idem. Qed.

Lemma contains_empty a p : contains (String a p) EmptyString = false.
Proof. done. Qed.

End StrFacts.

(** ** The store *)

Lemma alter_warnings (h : list (list string)) W E f :
  alter f (length h) (h ++ [W; E]) = h ++ [f W; E].
Proof. induction h as [|a h IH]; [done|]. simpl. by rewrite <- IH. Qed.

Lemma alter_errors (h : list (list string)) W E f :
  alter f (S (length h)) (h ++ [W; E]) = h ++ [W; f E].
Proof. induction h as [|a h IH]; [done|]. simpl. by rewrite <- IH. Qed.

Lemma deref_warnings h W E : deref (h ++ [W; E]) (length h) = W.
Proof. unfold deref. by rewrite lookup_app_r, Nat.sub_diag by lia. Qed.

Lemma deref_errors h W E : deref (h ++ [W; E]) (S (length h)) = E.
Proof.
  unfold deref. rewrite lookup_app_r by lia.
  by replace (S (length h) - length h) with 1 by lia.
Qed.

Lemma deref_old h h' l : l < length h → deref (h ++ h') l = deref h l.
Proof. intros H. unfold deref. by rewrite lookup_app_l. Qed.

Lemma view_dict h b W E : view (st h W E) (dict h b W E) = verdict b W E.
Proof.
  unfold view, dict, verdict, st; simpl.
  by rewrite deref_warnings, deref_errors.
Qed.

(** ** Running the monad *)

Lemma bind_run {A B} (m : M A) (f : A → M B) σ a σ' :
  m σ = (Return a, σ') → (m ≫= f) σ = f a σ'.
Proof. intros H. unfold mbind, M_bind. by rewrite H. Qed.

Lemma warnings_append_run x h W E :
  warnings_append x (st h W E) = (Return (), st h (W ++ [x]) E).
Proof.
  unfold warnings_append, mbind, M_bind, get_warnings, list_append, st; simpl.
  by rewrite alter_warnings.
Qed.

Lemma errors_append_run x h W E :
  errors_append x (st h W E) = (Return (), st h W (E ++ [x])).
Proof.
  unfold errors_append, mbind, M_bind, get_errors, list_append, st; simpl.
  by rewrite alter_errors.
Qed.

Lemma result_run b h W E : _result b (st h W E) = (Return (dict h b W E), st h W E).
Proof.
  unfold _result, mbind, M_bind, get_errors, get_warnings, list_len, mret, M_ret.
  destruct b; cbn [heap self_warnings self_errors st andb];
    by rewrite ?deref_warnings, ?deref_errors.
Qed.

Lemma prelude_run {A} (k : M A) σ :
  (l ← new_list; set_warnings l;; l ← new_list; set_errors l;; k) σ
  = k (st (heap σ) [] []).
Proof.
  unfold mbind, M_bind, new_list, set_warnings, set_errors; simpl.
  f_equal. unfold st. rewrite <- app_assoc, length_app. simpl.
  f_equal. lia.
Qed.

(** ** The rule table *)

(** Every pattern of the rule table compiles. *)
Lemma patterns_compile : Forall (λ p, is_Some (Re.compile p)) SUSPICIOUS_PATTERNS.
Proof. unfold SUSPICIOUS_PATTERNS. repeat constructor; vm_compute; eauto. Qed.

Lemma re_search_run pattern url σ :
  is_Some (Re.compile pattern) →
  re_search pattern url σ = (Return (matched pattern url), σ).
Proof.
  intros [r Hr]. unfold re_search, Re.search, matched. by rewrite Hr.
Qed.

(** The pattern loop appends one warning per matching pattern, in order. *)
Lemma scan_run url patterns h W E :
  Forall (λ p, is_Some (Re.compile p)) patterns →
  for_each patterns (λ pattern,
      b ← re_search pattern url;
      if b : bool then
        warnings_append ("Suspicious pattern detected: " +:+ pattern)
      else mret ()) (st h W E)
  = (Return (), st h (W ++ pattern_warnings patterns url) E).
Proof.
  intros Hc. revert W.
  induction Hc as [|p ps Hp _ IH]; intros W.
  - simpl. by rewrite app_nil_r.
  - cbn [for_each].
    unfold pattern_warnings. cbn [mbind list_bind].
    fold (pattern_warnings ps url).
    destruct (matched p url) eqn:Hm.
    + erewrite bind_run; last first.
      { erewrite bind_run by (by apply re_search_run).
        rewrite Hm. apply warnings_append_run. }
      rewrite IH. by rewrite <- app_assoc.
    + erewrite bind_run; last first.
      { erewrite bind_run by (by apply re_search_run).
        rewrite Hm. reflexivity. }
      by rewrite IH.
Qed.

(** The blocklist loop: the first entry found in the domain records the
    error and returns; otherwise nothing is recorded. *)
Lemma blocklist_run domain blocklist h W E :
  for_return blocklist (λ blocked,
      if Str.contains blocked domain then
        errors_append ("Domain '" +:+ domain +:+ "' is on blocklist");;
        Some <$> _result false
      else mret None) (st h W E)
  = if existsb (λ blocked, Str.contains blocked domain) blocklist
    then let E' := E ++ ["Domain '" +:+ domain +:+ "' is on blocklist"] in
         (Return (Some (dict h false W E')), st h W E')
    else (Return None, st h W E).
Proof.
  induction blocklist as [|b bl IH]; [done|].
  cbn [for_return existsb].
  destruct (Str.contains b domain); cbn [orb].
  - erewrite bind_run; last first.
    { erewrite bind_run by apply errors_append_run.
      unfold fmap, M_fmap. erewrite bind_run by apply result_run. reflexivity. }
    reflexivity.
  - erewrite bind_run by reflexivity. apply IH.
Qed.

Section Run.

Variable urlparse : string → exn + ParseResult.

(** [check_url] puts two new lists behind the store it is called in,
    leaves them holding the issues of its input, and returns the
    dictionary referring to them. *)
Lemma check_url_run url σ :
  ∀ b W E, issues_of urlparse url = (b, W, E) →
  check_url urlparse url σ = (Return (dict (heap σ) b W E), st (heap σ) W E).
Proof.
  intros b W E. unfold check_url, issues_of. rewrite prelude_run.
  generalize (heap σ) as h. intros h.
  assert ((false, @nil string, ["Invalid URL: empty or not a string"]) = (b, W, E) →
          (errors_append "Invalid URL: empty or not a string";; _result false)
            (st h [] []) = (Return (dict h b W E), st h W E)) as Hinv.
  { intros [= <- <- <-].
    erewrite bind_run by apply errors_append_run. apply result_run. }
  destruct url as [| | |s| |]; cbn [truthy isinstance_str negb];
    rewrite ?orb_true_r; try apply Hinv.
  destruct (String.eqb_spec s ""); cbn [negb orb]; [apply Hinv|].
  clear Hinv. unfold issues_of_str.
  (* url = url.strip() *)
  erewrite bind_run by reflexivity.
  (* parsed = urlparse(url) *)
  destruct (urlparse (Str.strip s)) as [e|parsed].
  { intros [= <- <- <-].
    erewrite bind_run by apply errors_append_run. apply result_run. }
  (* scheme *)
  destruct (negb (Str.mem (scheme parsed) ["http"; "https"])).
  { intros [= <- <- <-].
    erewrite bind_run by apply errors_append_run. apply result_run. }
  erewrite bind_run with (σ' := st h (http_warnings (scheme parsed)) []); last first.
  { unfold http_warnings.
    destruct (String.eqb (scheme parsed) "http");
      [apply warnings_append_run | reflexivity]. }
  cbv zeta.
  (* domain *)
  destruct (String.eqb (Str.lower (netloc parsed)) "").
  { intros [= <- <- <-].
    erewrite bind_run by apply errors_append_run. apply result_run. }
  (* blocklist *)
  pose proof (blocklist_run (Str.lower (netloc parsed)) BLOCKLIST h
                (http_warnings (scheme parsed)) []) as Hb.
  unfold blocked_in, whitelisted.
  destruct (existsb _ BLOCKLIST).
  { intros [= <- <- <-]. erewrite bind_run by apply Hb. reflexivity. }
  erewrite bind_run by apply Hb. clear Hb.
  (* whitelist *)
  destruct (existsb _ WHITELIST); cbn [negb].
  { intros [= <- <- <-].
    erewrite bind_run by reflexivity. apply result_run. }
  (* pattern scan, domain length, subdomains *)
  intros [= <- <- <-].
  erewrite bind_run; [apply result_run|].
  erewrite bind_run by (apply scan_run, patterns_compile).
  unfold scan_warnings, length_warnings, subdomain_warnings.
  rewrite !app_assoc.
  set (W1 := http_warnings _ ++ pattern_warnings _ _).
  destruct (50 <? String.length (Str.lower (netloc parsed))).
  - erewrite bind_run by apply warnings_append_run.
    destruct (5 <? length (Str.split "." (Str.lower (netloc parsed)))).
    + apply warnings_append_run.
    + by rewrite app_nil_r.
  - erewrite bind_run by reflexivity. rewrite app_nil_r.
    destruct (5 <? length (Str.split "." (Str.lower (netloc parsed)))).
    + apply warnings_append_run.
    + by rewrite app_nil_r.
Qed.

Lemma classify_eq url σ :
  ∀ b W E, issues_of urlparse url = (b, W, E) →
  classify urlparse σ url = Return (verdict b W E).
Proof.
  intros b W E H. unfold classify.
  rewrite (check_url_run _ _ _ _ _ H). by rewrite view_dict.
Qed.

End Run.

(** ** Shape of the recorded issues *)

Lemma blocked_in_empty : blocked_in EmptyString = false.
Proof. reflexivity. Qed.

Lemma whitelisted_empty : whitelisted EmptyString = false.
Proof. reflexivity. Qed.

Lemma blocked_in_intro blocked domain :
  blocked ∈ BLOCKLIST → Str.contains blocked domain = true →
  blocked_in domain = true.
Proof.
  intros Hb Hc. apply existsb_exists. exists blocked.
  split; [by apply list_elem_of_In | done].
Qed.

Lemma whitelisted_intro entry domain :
  entry ∈ WHITELIST → Str.contains entry domain = true →
  whitelisted domain = true.
Proof.
  intros Hb Hc. apply existsb_exists. exists entry.
  split; [by apply list_elem_of_In | done].
Qed.

Lemma blocked_in_none domain :
  (∀ blocked, blocked ∈ BLOCKLIST → Str.contains blocked domain = false) →
  blocked_in domain = false.
Proof.
  intros H. apply not_true_is_false. intros Hb.
  apply existsb_exists in Hb as (b & Hin & Hc).
  apply list_elem_of_In in Hin. rewrite (H b Hin) in Hc. discriminate.
Qed.

Lemma eqb_empty_false domain (f : string → bool) :
  f EmptyString = false → f domain = true → String.eqb domain "" = false.
Proof.
  intros H0 H1. destruct (String.eqb_spec domain ""); [|done]. congruence.
Qed.

Section Shape.

Variable urlparse : string → exn + ParseResult.

Lemma issues_of_PyStr s : s ≠ EmptyString →
  issues_of urlparse (PyStr s) = issues_of_str urlparse s.
Proof.
  intros Hs. unfold issues_of.
  destruct (String.eqb_spec s ""); [done|reflexivity].
Qed.

(** Either no error is recorded and [_result] is given [True], or exactly
    one is and [_result] is given [False]. *)
Lemma issues_of_errors url b W E :
  issues_of urlparse url = (b, W, E) →
  (b = true ∧ E = []) ∨ (b = false ∧ ∃ e, E = [e]).
Proof.
  unfold issues_of, issues_of_str.
  repeat match goal with
         | |- context [match ?x with _ => _ end] => destruct x
         end;
    intros [= <- <- <-]; eauto.
Qed.

Lemma verdict_exists url :
  ∃ b W E, issues_of urlparse url = (b, W, E).
Proof. destruct (issues_of urlparse url) as [[b W] E]. eauto. Qed.

End Shape.

(** ** Batches *)

Section Batch.

Variable urlparse : string → exn + ParseResult.

(** A dictionary whose lists were allocated in [h] reads the same in any
    extension of [h]. *)
Lemma view_extend h h' sw se sw' se' d :
  warnings d < length h → errors d < length h →
  view (State (h ++ h') sw' se') d = view (State h sw se) d.
Proof.
  intros Hw He. unfold view; simpl. by rewrite !deref_old.
Qed.

(** The loop of [check_batch]: the store only grows, each new entry pairs
    the input with a dictionary that, read at the end, is the verdict of
    that input alone. *)
Lemma check_batch_loop_run urls : ∀ acc σ,
  ∃ rs σ' h',
    check_batch_loop urlparse acc urls σ = (Return (acc ++ rs), σ')
    ∧ heap σ' = heap σ ++ h'
    ∧ Forall2 (λ u (r : pyval * result),
                 r.1 = u ∧ ∃ b W E, issues_of urlparse u = (b, W, E)
                                    ∧ view σ' r.2 = verdict b W E) urls rs.
Proof.
  induction urls as [|u rest IH]; intros acc σ.
  - exists [], σ, []. simpl. rewrite !app_nil_r. by repeat split.
  - destruct (verdict_exists urlparse u) as (b & W & E & Hu).
    cbn [check_batch_loop].
    erewrite bind_run by (by apply check_url_run).
    destruct (IH (acc ++ [(u, dict (heap σ) b W E)]) (st (heap σ) W E))
      as (rs & σ' & h' & Hrun & Hheap & Hrs).
    exists ((u, dict (heap σ) b W E) :: rs), σ', ([W; E] ++ h').
    split; [by rewrite Hrun, <- app_assoc|].
    split; [rewrite Hheap; simpl; by rewrite <- app_assoc|].
    constructor; [|done].
    split; [done|]. exists b, W, E. split; [done|].
    rewrite <- (view_dict (heap σ) b W E).
    destruct σ' as [hσ sw se]. simpl in Hheap. subst hσ.
    apply view_extend; simpl; rewrite length_app; simpl; lia.
Qed.

End Batch.

(** * The claims *)

Section Claims.

(** The results below hold whatever [urlparse] answers. *)
Variable urlparse : string → exn + ParseResult.

(** C1 (as amended): a URL that reaches the blocklist check with a host
    containing a blocklist entry is unsafe, its only error is the blocklist
    error, and its warnings are those recorded before that check: the
    insecure-transport warning when the scheme is http, none otherwise. No
    warning of the pattern scan is recorded. *)
Theorem blocklisted_verdict σ s parsed blocked :
  s ≠ EmptyString →
  urlparse (Str.strip s) = inr parsed →
  Str.mem (scheme parsed) ["http"; "https"] = true →
  blocked ∈ BLOCKLIST →
  Str.contains blocked (Str.lower (netloc parsed)) = true →
  classify urlparse σ (PyStr s)
  = Return {| v_safe := false;
              v_suspicious := String.eqb (scheme parsed) "http";
              v_warnings :=
                if String.eqb (scheme parsed) "http"
                then ["Uses HTTP (not HTTPS) - may be insecure"] else [];
              v_errors :=
                ["Domain '" +:+ Str.lower (netloc parsed) +:+ "' is on blocklist"] |}.
Proof.
  intros Hs Hp Hsch Hin Hc.
  pose proof (blocked_in_intro _ _ Hin Hc) as Hb.
  erewrite classify_eq; last first.
  { rewrite issues_of_PyStr by done. unfold issues_of_str.
    rewrite Hp, Hsch. cbn [negb].
    rewrite (eqb_empty_false _ _ blocked_in_empty Hb), Hb. reflexivity. }
  unfold verdict, http_warnings. simpl.
  by destruct (String.eqb (scheme parsed) "http").
Qed.

(** C4: [check_url] returns a verdict on every input, in every state of
    the checker; it never raises. *)
Theorem check_url_total σ url : ∃ v, classify urlparse σ url = Return v.
Proof.
  destruct (verdict_exists urlparse url) as (b & W & E & H).
  eexists. by apply classify_eq.
Qed.

(** C5: an https URL whose host contains a whitelist entry and no blocklist
    entry gets no warning at all, whatever else the URL contains; the
    verdict is safe with empty warnings. *)
Theorem whitelisted_https_clean σ s parsed entry :
  s ≠ EmptyString →
  urlparse (Str.strip s) = inr parsed →
  scheme parsed = "https" →
  (∀ blocked, blocked ∈ BLOCKLIST →
     Str.contains blocked (Str.lower (netloc parsed)) = false) →
  entry ∈ WHITELIST →
  Str.contains entry (Str.lower (netloc parsed)) = true →
  classify urlparse σ (PyStr s)
  = Return {| v_safe := true; v_suspicious := false;
              v_warnings := []; v_errors := [] |}.
Proof.
  intros Hs Hp Hsch Hnb Hin Hc.
  pose proof (whitelisted_intro _ _ Hin Hc) as Hw.
  erewrite classify_eq; last first.
  { rewrite issues_of_PyStr by done. unfold issues_of_str.
    rewrite Hp, Hsch. cbn [Str.mem existsb String.eqb Ascii.eqb Bool.eqb orb negb].
    rewrite (eqb_empty_false _ _ whitelisted_empty Hw).
    rewrite (blocked_in_none _ Hnb), Hw. reflexivity. }
  reflexivity.
Qed.

(** C6: in the verdict [check_url] returns, [safe] is false exactly when an
    error was recorded, and [suspicious] is true exactly when a warning
    was. *)
Theorem verdict_coherent σ url :
  ∃ v, classify urlparse σ url = Return v
       ∧ (v_safe v = false ↔ v_errors v ≠ [])
       ∧ (v_suspicious v = true ↔ v_warnings v ≠ []).
Proof.
  destruct (verdict_exists urlparse url) as (b & W & E & H).
  exists (verdict b W E). split; [by apply classify_eq|].
  unfold verdict; simpl. split.
  - destruct (issues_of_errors _ _ _ _ _ H) as [[-> ->]|[-> [e ->]]]; simpl; split; done.
  - destruct W; simpl; split; done.
Qed.

(** C7: the verdict [check_url] returns holds at most one error. *)
Theorem at_most_one_error σ url :
  ∃ v, classify urlparse σ url = Return v ∧ length (v_errors v) ≤ 1.
Proof.
  destruct (verdict_exists urlparse url) as (b & W & E & H).
  exists (verdict b W E). split; [by apply classify_eq|].
  destruct (issues_of_errors _ _ _ _ _ H) as [[-> ->]|[-> [e ->]]]; simpl; lia.
Qed.

(** C8: an input that is the empty string or is not a string is unsafe,
    with one error and no warning. *)
Theorem invalid_input σ url :
  url = PyStr "" ∨ isinstance_str url = false →
  ∃ v, classify urlparse σ url = Return v
       ∧ v_safe v = false
       ∧ v_errors v = ["Invalid URL: empty or not a string"]
       ∧ v_warnings v = [].
Proof.
  intros Hin. exists (verdict false [] ["Invalid URL: empty or not a string"]).
  split; [|by repeat split].
  apply classify_eq. unfold issues_of.
  destruct url as [| | |s| |]; try done.
  by destruct Hin as [[= ->]|Hi].
Qed.

(** C9: [check_batch] returns one pair per input, in input order; each pair
    holds the input and the verdict that [check_url] gives for that input
    when called on its own, on a checker in any state. *)
Theorem check_batch_independent σ σ0 urls :
  ∃ out, classify_batch urlparse σ urls = Return out
         ∧ Forall2 (λ u (r : pyval * Verdict),
                      r.1 = u ∧ classify urlparse σ0 u = Return r.2) urls out.
Proof.
  destruct (check_batch_loop_run urlparse urls [] σ) as (rs & σ' & h' & Hrun & _ & Hrs).
  unfold classify_batch, check_batch. rewrite Hrun. simpl.
  eexists. split; [done|].
  clear Hrun. induction Hrs as [|u r urls' rs' [Hu (b & W & E & Hi & Hv)] _ IH].
  - constructor.
  - simpl. constructor; [|done]. split; [done|].
    simpl. rewrite Hv. by apply classify_eq.
Qed.

(** C10: on a string that is not empty and not all whitespace, [check_url]
    gives the same verdict as on its stripped form. *)
Theorem strip_invariant σ s :
  s ≠ EmptyString → Str.strip s ≠ EmptyString →
  classify urlparse σ (PyStr s) = classify urlparse σ (PyStr (Str.strip s)).
Proof.
  intros Hs Hst.
  destruct (verdict_exists urlparse (PyStr s)) as (b & W & E & H).
  rewrite (classify_eq _ _ _ _ _ _ H). symmetry. apply classify_eq.
  rewrite issues_of_PyStr in * by done.
  unfold issues_of_str in *. by rewrite StrFacts.strip_idem.
Qed.

End Claims.

(** * Instances with the parser of [Urllib] *)

(** C1 at a blocklisted https URL. *)
Lemma blocklisted_verdict_witness :
  ("https://spam-domain.tk/offer" ≠ EmptyString
   ∧ Urllib.urlparse (Str.strip "https://spam-domain.tk/offer")
     = inr {| scheme := "https"; netloc := "spam-domain.tk" |}
   ∧ Str.mem "https" ["http"; "https"] = true
   ∧ "spam-domain.tk" ∈ BLOCKLIST
   ∧ Str.contains "spam-domain.tk" (Str.lower "spam-domain.tk") = true)
  ∧ classify Urllib.urlparse URLSafetyChecker (PyStr "https://spam-domain.tk/offer")
    = Return {| v_safe := false; v_suspicious := false; v_warnings := [];
                v_errors := ["Domain 'spam-domain.tk' is on blocklist"] |}.
Proof.
  assert ("https://spam-domain.tk/offer" ≠ EmptyString) as H1 by discriminate.
  assert (Urllib.urlparse (Str.strip "https://spam-domain.tk/offer")
          = inr {| scheme := "https"; netloc := "spam-domain.tk" |}) as H2
    by (vm_compute; reflexivity).
  assert (Str.mem "https" ["http"; "https"] = true) as H3 by (vm_compute; reflexivity).
  assert ("spam-domain.tk" ∈ BLOCKLIST) as H4 by (unfold BLOCKLIST; repeat constructor).
  assert (Str.contains "spam-domain.tk" (Str.lower "spam-domain.tk") = true) as H5
    by (vm_compute; reflexivity).
  split; [by repeat split|].
  exact (blocklisted_verdict Urllib.urlparse URLSafetyChecker
           "https://spam-domain.tk/offer"
           {| scheme := "https"; netloc := "spam-domain.tk" |}
           "spam-domain.tk" H1 H2 H3 H4 H5).
Defined.

(** C1 as stated fails at "http://malicious-example.com": the host is
    blocklisted, every earlier check passes, and the verdict keeps the
    insecure-transport warning recorded before the blocklist check. *)
Lemma blocklisted_http_keeps_warning :
  ∃ v,
    Urllib.urlparse (Str.strip "http://malicious-example.com")
    = inr {| scheme := "http"; netloc := "malicious-example.com" |}
    ∧ Str.mem "http" ["http"; "https"] = true
    ∧ "malicious-example.com" ∈ BLOCKLIST
    ∧ Str.contains "malicious-example.com" (Str.lower "malicious-example.com") = true
    ∧ classify Urllib.urlparse URLSafetyChecker (PyStr "http://malicious-example.com")
      = Return v
    ∧ v_safe v = false
    ∧ v_errors v = ["Domain 'malicious-example.com' is on blocklist"]
    ∧ v_warnings v = ["Uses HTTP (not HTTPS) - may be insecure"]
    ∧ v_warnings v ≠ [].
Proof.
  exists {| v_safe := false; v_suspicious := true;
            v_warnings := ["Uses HTTP (not HTTPS) - may be insecure"];
            v_errors := ["Domain 'malicious-example.com' is on blocklist"] |}.
  split; [vm_compute; reflexivity|].
  split; [vm_compute; reflexivity|].
  split; [unfold BLOCKLIST; repeat constructor|].
  split; [vm_compute; reflexivity|].
  split; [vm_compute; reflexivity|].
  repeat split. discriminate.
Qed.

(** C2 at "https://paypal.example.org/": the URL has no "login" in it and
    is not whitelisted, yet the brand pattern matches and records its
    warning. *)
Theorem brand_without_login :
  Str.contains "login" (Str.lower "https://paypal.example.org/") = false
  ∧ whitelisted "paypal.example.org" = false
  ∧ Re.search "paypal|amazon|microsoft|google|apple.*login"
      "https://paypal.example.org/" true = Some true
  ∧ classify Urllib.urlparse URLSafetyChecker (PyStr "https://paypal.example.org/")
    = Return {| v_safe := true; v_suspicious := true;
                v_warnings :=
                  ["Suspicious pattern detected: paypal|amazon|microsoft|google|apple.*login"];
                v_errors := [] |}.
Proof. repeat split; vm_compute; reflexivity. Qed.

(** C3 at "https://secure-verify-account.tk/login": the verdict is safe and
    suspicious, but its only warning is that of the phishing-phrase
    pattern; the top-level-domain pattern, anchored at the end of the whole
    URL, does not match. *)
Theorem tk_with_path :
  Re.search "\.tk$|\.ml$|\.ga$|\.cf$|\.gq$"
    "https://secure-verify-account.tk/login" true = Some false
  ∧ classify Urllib.urlparse URLSafetyChecker
      (PyStr "https://secure-verify-account.tk/login")
    = Return {| v_safe := true; v_suspicious := true;
                v_warnings :=
                  ["Suspicious pattern detected: secure.*account|verify.*account|suspended.*account"];
                v_errors := [] |}.
Proof. repeat split; vm_compute; reflexivity. Qed.

(** C5 at a whitelisted https URL full of phishing-like tokens. *)
Lemma whitelisted_https_clean_witness :
  ("https://github.com/paypal/secure-account@login.exe" ≠ EmptyString
   ∧ Urllib.urlparse (Str.strip "https://github.com/paypal/secure-account@login.exe")
     = inr {| scheme := "https"; netloc := "github.com" |}
   ∧ "https" = "https"
   ∧ (∀ blocked, blocked ∈ BLOCKLIST →
        Str.contains blocked (Str.lower "github.com") = false)
   ∧ "github.com" ∈ WHITELIST
   ∧ Str.contains "github.com" (Str.lower "github.com") = true)
  ∧ classify Urllib.urlparse URLSafetyChecker
      (PyStr "https://github.com/paypal/secure-account@login.exe")
    = Return {| v_safe := true; v_suspicious := false;
                v_warnings := []; v_errors := [] |}.
Proof.
  assert ("https://github.com/paypal/secure-account@login.exe" ≠ EmptyString) as H1
    by discriminate.
  assert (Urllib.urlparse (Str.strip "https://github.com/paypal/secure-account@login.exe")
          = inr {| scheme := "https"; netloc := "github.com" |}) as H2
    by (vm_compute; reflexivity).
  assert ("https" = "https") as H3 by reflexivity.
  assert (∀ blocked, blocked ∈ BLOCKLIST →
            Str.contains blocked (Str.lower "github.com") = false) as H4.
  { intros blocked Hb. unfold BLOCKLIST in Hb.
    apply list_elem_of_In in Hb. simpl in Hb.
    destruct Hb as [<-|[<-|[]]]; vm_compute; reflexivity. }
  assert ("github.com" ∈ WHITELIST) as H5 by (unfold WHITELIST; repeat constructor).
  assert (Str.contains "github.com" (Str.lower "github.com") = true) as H6
    by (vm_compute; reflexivity).
  split; [by repeat split|].
  exact (whitelisted_https_clean Urllib.urlparse URLSafetyChecker
           "https://github.com/paypal/secure-account@login.exe"
           {| scheme := "https"; netloc := "github.com" |}
           "github.com" H1 H2 H3 H4 H5 H6).
Defined.

(** C8 at the empty string. *)
Lemma invalid_input_witness :
  (PyStr "" = PyStr "" ∨ isinstance_str (PyStr "") = false)
  ∧ ∃ v, classify Urllib.urlparse URLSafetyChecker (PyStr "") = Return v
         ∧ v_safe v = false
         ∧ v_errors v = ["Invalid URL: empty or not a string"]
         ∧ v_warnings v = [].
Proof.
  assert (PyStr "" = PyStr "" ∨ isinstance_str (PyStr "") = false) as H
    by (left; reflexivity).
  split; [exact H|].
  exact (invalid_input Urllib.urlparse URLSafetyChecker (PyStr "") H).
Defined.

(** C10 at a URL with blanks around it. *)
Lemma strip_invariant_witness :
  ("  http://example.com/a b  " ≠ EmptyString
   ∧ Str.strip "  http://example.com/a b  " ≠ EmptyString)
  ∧ classify Urllib.urlparse URLSafetyChecker (PyStr "  http://example.com/a b  ")
    = classify Urllib.urlparse URLSafetyChecker
        (PyStr (Str.strip "  http://example.com/a b  ")).
Proof.
  assert ("  http://example.com/a b  " ≠ EmptyString) as H1 by discriminate.
  assert (Str.strip "  http://example.com/a b  " ≠ EmptyString) as H2
    by (vm_compute; discriminate).
  split; [by split|].
  exact (strip_invariant Urllib.urlparse URLSafetyChecker
           "  http://example.com/a b  " H1 H2).
Defined.

(** * Further properties of [check_url] *)

Lemma blocked_in_false domain :
  blocked_in domain = false →
  ∀ blocked, blocked ∈ BLOCKLIST → Str.contains blocked domain = false.
Proof.
  intros H blocked Hin. apply not_true_is_false. intros Hc.
  by rewrite (blocked_in_intro _ _ Hin Hc) in H.
Qed.

Lemma split_length c s : length (Str.split c s) = S (StrMore.count c s).
Proof.
  induction s as [|x t IH]; [done|].
  simpl. destruct (Ascii.eqb x c); simpl; [by rewrite IH|].
  destruct (Str.split c t); simpl in *; lia.
Qed.

Section Checks.

Variable urlparse : string → exn + ParseResult.

(** The flag given to [_result] is [True] exactly when the input is a
    non-empty string that parses, has scheme http or https, a non-empty
    host, and no blocklist entry in the lower-cased host. *)
Lemma issues_flag_iff url b W E :
  issues_of urlparse url = (b, W, E) →
  b = true ↔
  ∃ s parsed,
    url = PyStr s ∧ s ≠ EmptyString
    ∧ urlparse (Str.strip s) = inr parsed
    ∧ Str.mem (scheme parsed) ["http"; "https"] = true
    ∧ Str.lower (netloc parsed) ≠ EmptyString
    ∧ blocked_in (Str.lower (netloc parsed)) = false.
Proof.
  unfold issues_of, issues_of_str.
  destruct url as [| | |s| |];
    try (intros [= <- <- <-]; split; [done|by intros (?&?&?&_)]).
  destruct (String.eqb_spec s "") as [->|Hs].
  { intros [= <- <- <-]. split; [done|]. by intros (?&?&[= <-]&?&_). }
  destruct (urlparse (Str.strip s)) as [e|parsed] eqn:Hp.
  { intros [= <- <- <-]. split; [done|].
    intros (?&?&[= <-]&_&Hp'&_). congruence. }
  destruct (Str.mem (scheme parsed) ["http"; "https"]) eqn:Hm; cbn [negb].
  2:{ intros [= <- <- <-]. split; [done|].
      intros (?&?&[= <-]&_&Hp'&Hm'&_). congruence. }
  destruct (String.eqb_spec (Str.lower (netloc parsed)) "") as [Hd|Hd].
  { intros [= <- <- <-]. split; [done|].
    intros (?&?&[= <-]&_&Hp'&_&Hd'&_). congruence. }
  destruct (blocked_in (Str.lower (netloc parsed))) eqn:Hb.
  { intros [= <- <- <-]. split; [done|].
    intros (?&?&[= <-]&_&Hp'&_&_&Hb'). congruence. }
  assert (∃ s0 parsed0,
            PyStr s = PyStr s0 ∧ s0 ≠ EmptyString
            ∧ urlparse (Str.strip s0) = inr parsed0
            ∧ Str.mem (scheme parsed0) ["http"; "https"] = true
            ∧ Str.lower (netloc parsed0) ≠ EmptyString
            ∧ blocked_in (Str.lower (netloc parsed0)) = false) as Hex.
  { exists s, parsed. by rewrite Hp. }
  destruct (whitelisted (Str.lower (netloc parsed)));
    intros [= <- <- <-]; by split.
Qed.

(** X1: [check_url] answers safe exactly for a non-empty string whose
    stripped form parses with scheme http or https and a non-empty host
    that contains no blocklist entry. *)
Theorem safe_iff σ url :
  ∃ v, classify urlparse σ url = Return v
       ∧ (v_safe v = true ↔
          ∃ s parsed,
            url = PyStr s ∧ s ≠ EmptyString
            ∧ urlparse (Str.strip s) = inr parsed
            ∧ Str.mem (scheme parsed) ["http"; "https"] = true
            ∧ Str.lower (netloc parsed) ≠ EmptyString
            ∧ ∀ blocked, blocked ∈ BLOCKLIST →
                Str.contains blocked (Str.lower (netloc parsed)) = false).
Proof.
  destruct (verdict_exists urlparse url) as (b & W & E & H).
  exists (verdict b W E). split; [by apply classify_eq|].
  assert (v_safe (verdict b W E) = b) as ->.
  { unfold verdict; simpl.
    by destruct (issues_of_errors _ _ _ _ _ H) as [[-> ->]|[-> [e ->]]]. }
  rewrite (issues_flag_iff _ _ _ _ H).
  split; intros (s & parsed & Hu & Hs & Hp & Hm & Hd & Hb);
    exists s, parsed; repeat split; try done.
  - by apply blocked_in_false.
  - by apply blocked_in_none.
Qed.

(** X2: a string whose parsed scheme is neither http nor https (a missing
    scheme included) is unsafe with the single error naming that scheme,
    and no warning. *)
Theorem invalid_scheme σ s parsed :
  s ≠ EmptyString →
  urlparse (Str.strip s) = inr parsed →
  Str.mem (scheme parsed) ["http"; "https"] = false →
  classify urlparse σ (PyStr s)
  = Return {| v_safe := false; v_suspicious := false; v_warnings := [];
              v_errors := ["Invalid scheme: " +:+ scheme parsed
                           +:+ " (only http/https allowed)"] |}.
Proof.
  intros Hs Hp Hm. erewrite classify_eq; last first.
  { rewrite issues_of_PyStr by done. unfold issues_of_str.
    by rewrite Hp, Hm. }
  reflexivity.
Qed.

(** X3: a string that parses with scheme http or https but an empty host
    is unsafe with the single error "No domain found in URL"; the
    insecure-transport warning recorded before stays when the scheme is
    http. *)
Theorem no_domain σ s parsed :
  s ≠ EmptyString →
  urlparse (Str.strip s) = inr parsed →
  Str.mem (scheme parsed) ["http"; "https"] = true →
  netloc parsed = EmptyString →
  classify urlparse σ (PyStr s)
  = Return {| v_safe := false;
              v_suspicious := String.eqb (scheme parsed) "http";
              v_warnings :=
                if String.eqb (scheme parsed) "http"
                then ["Uses HTTP (not HTTPS) - may be insecure"] else [];
              v_errors := ["No domain found in URL"] |}.
Proof.
  intros Hs Hp Hm Hn. erewrite classify_eq; last first.
  { rewrite issues_of_PyStr by done. unfold issues_of_str.
    rewrite Hp, Hm, Hn. reflexivity. }
  unfold verdict, http_warnings; simpl.
  by destruct (String.eqb (scheme parsed) "http").
Qed.

(** X4: when [urlparse] raises on the stripped string, the exception is
    caught and reported: the verdict is unsafe with the single error
    "Failed to parse URL: " followed by the exception's text. *)
Theorem parse_failure σ s e :
  s ≠ EmptyString →
  urlparse (Str.strip s) = inl e →
  classify urlparse σ (PyStr s)
  = Return {| v_safe := false; v_suspicious := false; v_warnings := [];
              v_errors := ["Failed to parse URL: " +:+ exn_str e] |}.
Proof.
  intros Hs Hp. erewrite classify_eq; last first.
  { rewrite issues_of_PyStr by done. unfold issues_of_str.
    by rewrite Hp. }
  reflexivity.
Qed.

(** X5: the whitelist does not cover the transport check: an http URL on
    a whitelisted host is safe but suspicious, with the
    insecure-transport warning as its only warning. *)
Theorem whitelisted_http_warns σ s parsed entry :
  s ≠ EmptyString →
  urlparse (Str.strip s) = inr parsed →
  scheme parsed = "http" →
  (∀ blocked, blocked ∈ BLOCKLIST →
     Str.contains blocked (Str.lower (netloc parsed)) = false) →
  entry ∈ WHITELIST →
  Str.contains entry (Str.lower (netloc parsed)) = true →
  classify urlparse σ (PyStr s)
  = Return {| v_safe := true; v_suspicious := true;
              v_warnings := ["Uses HTTP (not HTTPS) - may be insecure"];
              v_errors := [] |}.
Proof.
  intros Hs Hp Hsch Hnb Hin Hc.
  pose proof (whitelisted_intro _ _ Hin Hc) as Hw.
  erewrite classify_eq; last first.
  { rewrite issues_of_PyStr by done. unfold issues_of_str.
    rewrite Hp, Hsch. cbn [Str.mem existsb String.eqb Ascii.eqb Bool.eqb orb negb].
    rewrite (eqb_empty_false _ _ whitelisted_empty Hw).
    by rewrite (blocked_in_none _ Hnb), Hw. }
  reflexivity.
Qed.

(** X6: an unsafe verdict never carries a warning of the pattern scan or
    of the length checks: its warnings are empty or just the
    insecure-transport warning. *)
Theorem unsafe_warnings σ url :
  ∃ v, classify urlparse σ url = Return v
       ∧ (v_safe v = false →
          v_warnings v = []
          ∨ v_warnings v = ["Uses HTTP (not HTTPS) - may be insecure"]).
Proof.
  destruct (verdict_exists urlparse url) as (b & W & E & H).
  exists (verdict b W E). split; [by apply classify_eq|].
  unfold verdict; simpl. revert H.
  unfold issues_of, issues_of_str, http_warnings.
  repeat match goal with
         | |- context [match ?x with _ => _ end] => destruct x
         end;
    intros [= <- <- <-]; simpl; auto; discriminate.
Qed.

(** X7: the verdict does not depend on the state the checker is in, that
    is on the calls made before: two calls on the same input agree. *)
Theorem state_independent σ σ' url :
  classify urlparse σ url = classify urlparse σ' url.
Proof.
  destruct (verdict_exists urlparse url) as (b & W & E & H).
  by rewrite !(classify_eq _ _ _ _ _ _ H).
Qed.

(** X8: a call of [check_url] leaves every list object that existed
    before untouched and adds exactly two new ones, to which the returned
    dictionary and the checker's attributes refer; a dictionary returned
    by an earlier call therefore reads the same after the call. *)
Theorem check_url_frame σ url :
  ∃ d σ' W E,
    check_url urlparse url σ = (Return d, σ')
    ∧ heap σ' = heap σ ++ [W; E]
    ∧ warnings d = length (heap σ) ∧ errors d = S (length (heap σ))
    ∧ self_warnings σ' = warnings d ∧ self_errors σ' = errors d
    ∧ ∀ d0, warnings d0 < length (heap σ) → errors d0 < length (heap σ) →
            view σ' d0 = view σ d0.
Proof.
  destruct (verdict_exists urlparse url) as (b & W & E & H).
  exists (dict (heap σ) b W E), (st (heap σ) W E), W, E.
  split; [by apply check_url_run|].
  repeat split; try done.
  intros d0 Hw He. destruct σ as [h sw se]. by apply view_extend.
Qed.

End Checks.

(** * What the rules of the table match *)

Module StrMoreFacts.
Import Str StrMore.

Lemma sapp_cons x (a b : string) : String x a +:+ b = String x (a +:+ b).
Proof. reflexivity. Qed.

Lemma sapp_nil_l (b : string) : "" +:+ b = b.
Proof. reflexivity. Qed.

Lemma sapp_assoc (a b c : string) : (a +:+ b) +:+ c = a +:+ (b +:+ c).
Proof.
  induction a as [|x a IH]; [done|]. rewrite !sapp_cons. f_equal. apply IH.
Qed.

Lemma sapp_nil_r (a : string) : a +:+ "" = a.
Proof. induction a as [|x a IH]; [done|]. rewrite sapp_cons. f_equal. apply IH. Qed.

Lemma lower_app a b : lower (a +:+ b) = lower a +:+ lower b.
Proof.
  induction a as [|x a IH]; [done|].
  rewrite sapp_cons. simpl. rewrite sapp_cons. f_equal. apply IH.
Qed.


Lemma ascii_cases (P : ascii → Prop) :
  (∀ b0 b1 b2 b3 b4 b5 b6 b7, P (Ascii b0 b1 b2 b3 b4 b5 b6 b7)) → ∀ c, P c.
Proof. intros H []. apply H. Qed.

Ltac by_cases :=
  intros x; pattern x; apply ascii_cases;
  intros [] [] [] [] [] [] [] []; vm_compute; reflexivity.

Lemma caseless_at : caseless "@".
Proof. by_cases. Qed.

Lemma caseless_dash : caseless "-".
Proof. by_cases. Qed.

Lemma caseless_newline : caseless Re.newline.
Proof. by_cases. Qed.

Lemma startswith_caseless w s :
  (∀ c, In c (list_ascii_of_string w) → caseless c) →
  startswith w (lower s) = startswith w s.
Proof.
  revert s. induction w as [|a w IH]; intros s Hw; [done|].
  destruct s as [|x t]; [done|]. simpl.
  rewrite (Hw a) by (simpl; auto). f_equal. apply IH.
  intros c Hc. apply Hw. simpl. auto.
Qed.

Lemma contains_caseless w s :
  (∀ c, In c (list_ascii_of_string w) → caseless c) →
  contains w (lower s) = contains w s.
Proof.
  intros Hw. induction s as [|x t IH].
  - reflexivity.
  - cbn [lower contains].
    change (String (lower_char x) (lower t)) with (lower (String x t)).
    by rewrite (startswith_caseless w _ Hw), IH.
Qed.

End StrMoreFacts.

Module ReFacts.
Import Re ReMore Str StrMore StrMoreFacts.

Lemma nonempty_app {A} (l1 l2 : list A) :
  nonempty (l1 ++ l2) = nonempty l1 || nonempty l2.
Proof. by destruct l1. Qed.

Lemma nonempty_bind {A B} (f : A → list B) (l : list A) :
  nonempty (x ← l; f x) = existsb (λ x, nonempty (f x)) l.
Proof.
  induction l as [|a l IH]; [done|].
  cbn [mbind list_bind existsb]. rewrite nonempty_app. f_equal. apply IH.
Qed.

Lemma found_unfold ic r s :
  found ic r s
  = nonempty (ends ic r s)
    || match s with
       | EmptyString => false
       | String _ t => found ic r t
       end.
Proof. destruct s as [|x t]; cbn [found]; by destruct (ends ic r _). Qed.

(** Two expressions that can start at the same places are found in the
    same strings. *)
Lemma found_ext ic r1 r2 :
  (∀ s, nonempty (ends ic r1 s) = nonempty (ends ic r2 s)) →
  ∀ s, found ic r1 s = found ic r2 s.
Proof.
  intros H s. induction s as [|x t IH]; rewrite (found_unfold _ r1), (found_unfold _ r2), H;
    [done|by rewrite IH].
Qed.

Lemma found_alt ic r1 r2 s :
  found ic (Alt r1 r2) s = found ic r1 s || found ic r2 s.
Proof.
  induction s as [|x t IH];
    rewrite (found_unfold _ (Alt r1 r2)), (found_unfold _ r1), (found_unfold _ r2);
    cbn [ends]; rewrite nonempty_app; [|rewrite IH];
    repeat match goal with
           | |- context [nonempty ?l] => destruct (nonempty l)
           | |- context [found ic ?r ?t] => destruct (found ic r t)
           end; reflexivity.
Qed.

Lemma found_alts ic rs s :
  rs ≠ [] → found ic (alts rs) s = existsb (λ r, found ic r s) rs.
Proof.
  induction rs as [|r rs IH]; [done|]. intros _.
  destruct rs as [|r' rs]; [cbn [alts existsb]; by rewrite orb_false_r|].
  change (alts (r :: r' :: rs)) with (Alt r (alts (r' :: rs))).
  rewrite found_alt, IH by done. reflexivity.
Qed.

Lemma ascii_eqb_sym (a b : ascii) : Ascii.eqb a b = Ascii.eqb b a.
Proof. destruct (Ascii.eqb_spec a b), (Ascii.eqb_spec b a); congruence. Qed.

(** A lower-case literal matches where the lower-cased text starts with it. *)
Lemma ends_word_then w k s :
  lower w = w →
  ends true (word_then w k) s
  = if startswith w (lower s) then ends true k (drop (String.length w) s) else [].
Proof.
  revert s. induction w as [|c w IH]; intros s Hw.
  - by destruct s.
  - injection Hw as Hc Hw'.
    cbn [word_then ends].
    destruct s as [|x t]; [done|].
    unfold same. rewrite Hc, ascii_eqb_sym.
    cbn [lower startswith String.length drop].
    destruct (Ascii.eqb c (lower_char x)); [|done].
    cbn [mbind list_bind andb]. rewrite app_nil_r. by apply IH.
Qed.

Lemma found_word w s :
  lower w = w → found true (word w) s = contains w (lower s).
Proof.
  intros Hw. induction s as [|x t IH]; rewrite found_unfold; unfold word;
    rewrite ends_word_then by done; cbn [ends lower contains].
  - change (lower "") with "". by destruct (startswith w "").
  - change (String (lower_char x) (lower t)) with (lower (String x t)).
    rewrite <- IH. unfold word. by destruct (startswith w _).
Qed.

Lemma bind_ext {A B} (f g : A → list B) (l : list A) :
  (∀ x, f x = g x) → (x ← l; f x) = (x ← l; g x).
Proof.
  intros H. induction l as [|a l IH]; [done|].
  cbn [mbind list_bind]. by rewrite H, IH.
Qed.

(** [n] rounds of one character are the literal of its [n] copies. *)
Lemma times_chr ic c n s :
  times (ends ic (Chr c)) n s = ends ic (word (mul c n)) s.
Proof.
  revert s. induction n as [|n IH]; intros s; [done|].
  cbn [times mul]. unfold word. cbn [word_then].
  change (ends ic (Seq (Chr c) (word_then (mul c n) Eps)) s)
    with (t ← ends ic (Chr c) s; ends ic (word (mul c n)) t).
  by apply bind_ext.
Qed.

Lemma upto_nonempty step n s : nonempty (upto step n s) = true.
Proof. by destruct n. Qed.

Lemma existsb_always {A} (f : A → bool) (l : list A) :
  (∀ x, f x = true) → existsb f l = nonempty l.
Proof. intros H. destruct l as [|a l]; [done|]. simpl. by rewrite H. Qed.

(** [c{n,}] can start exactly where [n] copies of [c] do. *)
Lemma nonempty_at_least ic c n s :
  nonempty (ends ic (Seq (Rep (Chr c) n None) Eps) s)
  = nonempty (ends ic (word (mul c n)) s).
Proof.
  change (ends ic (Seq (Rep (Chr c) n None) Eps) s)
    with (u ← (t ← times (ends ic (Chr c)) n s;
               upto (ends ic (Chr c)) (String.length t) t); [u]).
  rewrite times_chr, nonempty_bind, existsb_always by done.
  rewrite nonempty_bind. apply existsb_always.
  intros t. apply upto_nonempty.
Qed.

Lemma search_compiled pattern r s :
  compile pattern = Some r → search pattern s true = Some (found true r s).
Proof. intros H. unfold search. by rewrite H. Qed.

End ReFacts.

Module ReFacts2.
Import Re ReMore Str StrMore StrMoreFacts ReFacts.

(** *** Literals anchored at the end *)

Lemma starts_at_end w s :
  startswith w (lower s) && at_end (drop (String.length w) s)
  = String.eqb w (lower s) || String.eqb (w +:+ nl) (lower s).
Proof.
  revert s. induction w as [|a w IH]; intros s.
  - change ("" +:+ nl) with (String newline "").
    destruct s as [|x [|y t]]; [done| |];
      cbn [lower startswith at_end drop String.length String.eqb andb orb].
    + rewrite (caseless_newline x), (ascii_eqb_sym x). by destruct (Ascii.eqb newline x).
    + by destruct (Ascii.eqb newline (lower_char x)).
  - destruct s as [|x t]; [done|].
    rewrite sapp_cons. cbn [lower startswith String.length drop String.eqb].
    rewrite <- andb_assoc, IH. by destruct (Ascii.eqb a (lower_char x)).
Qed.

Lemma nonempty_word_eol w s :
  lower w = w →
  nonempty (ends true (word_then w (Seq Eol Eps)) s)
  = String.eqb w (lower s) || String.eqb (w +:+ nl) (lower s).
Proof.
  intros Hw. rewrite ends_word_then, <- starts_at_end by done.
  destruct (startswith w (lower s)); [|done].
  cbn [ends andb]. by destruct (at_end _).
Qed.

Lemma found_word_eol w s :
  lower w = w →
  found true (word_then w (Seq Eol Eps)) s
  = endswith w (lower s) || endswith (w +:+ nl) (lower s).
Proof.
  intros Hw. induction s as [|x t IH]; rewrite found_unfold, nonempty_word_eol by done.
  - cbn [lower endswith]. by rewrite !orb_false_r.
  - rewrite IH. cbn [lower endswith].
    repeat match goal with
           | |- context [String.eqb ?a ?b] => destruct (String.eqb a b)
           | |- context [endswith ?a ?b] => destruct (endswith a b)
           end; reflexivity.
Qed.

(** *** Two literals with [.*] between *)

Lemma found_iff ic r s :
  found ic r s = true ↔ ∃ a t, s = a +:+ t ∧ nonempty (ends ic r t) = true.
Proof.
  induction s as [|x s IH]; rewrite found_unfold, orb_true_iff.
  - split.
    + intros [H|H]; [|done]. by exists "", "".
    + intros (a & t & Hs & H). left.
      destruct a; [|done]. rewrite sapp_nil_l in Hs. by subst t.
  - rewrite IH. split.
    + intros [H|(a & t & -> & H)]; [by exists "", (String x s)|].
      by exists (String x a), t.
    + intros (a & t & Hs & H). destruct a as [|y a].
      * left. rewrite sapp_nil_l in Hs. by subst t.
      * right. rewrite sapp_cons in Hs. injection Hs as -> ->. by exists a, t.
Qed.






(** *** Text that has been stripped *)

Lemma rstrip_tail x t : rstrip (String x t) = String x t → rstrip t = t.
Proof.
  simpl. destruct (rstrip t) as [|d u].
  - destruct (isspace x); [done|]. by intros [= <-].
  - by intros [= <-].
Qed.

Lemma rstrip_no_final_newline u v : rstrip u = u → lower u ≠ v +:+ nl.
Proof.
  revert v. induction u as [|x t IH]; intros v Hu.
  - by destruct v.
  - destruct v as [|y v].
    + cbn [lower]. unfold nl. intros [= Hx Ht].
      destruct t; [|done].
      assert (x = newline) as ->.
      { apply Ascii.eqb_eq. rewrite ascii_eqb_sym, <- (caseless_newline x), Hx.
        apply Ascii.eqb_refl. }
      discriminate Hu.
    + rewrite sapp_cons. cbn [lower]. intros [= _ Ht].
      by apply (IH v (rstrip_tail _ _ Hu)).
Qed.

Lemma endswith_nl_stripped w u :
  rstrip u = u → endswith (w +:+ nl) (lower u) = false.
Proof.
  intros Hu. induction u as [|x t IH].
  - cbn [lower endswith]. rewrite orb_false_r.
    apply String.eqb_neq. by destruct w.
  - cbn [lower endswith]. rewrite (IH (rstrip_tail _ _ Hu)), orb_false_r.
    apply String.eqb_neq. intros H. symmetry in H.
    by apply (rstrip_no_final_newline (String x t) w Hu).
Qed.

End ReFacts2.

Section Rules.
Import Re ReMore StrMoreFacts ReFacts ReFacts2.


(** X10: the at-sign rule matches exactly the URLs that contain [@]. *)
Theorem at_sign_rule url :
  Re.search "@" url true = Some (Str.contains "@" url).
Proof.
  rewrite (search_compiled _ (word "@")) by (vm_compute; reflexivity).
  f_equal. rewrite found_word by reflexivity.
  apply contains_caseless. intros c [<-|[]]. apply caseless_at.
Qed.

(** X11: the dash rule matches exactly the URLs that contain ten dashes
    in a row. *)
Theorem dash_rule url :
  Re.search "-{10,}" url true = Some (Str.contains "----------" url).
Proof.
  rewrite (search_compiled _ (Seq (Rep (Chr "-") 10 None) Eps))
    by (vm_compute; reflexivity).
  f_equal. rewrite (found_ext _ _ (word (StrMore.mul "-" 10)))
    by (intros s; apply nonempty_at_least).
  rewrite found_word by reflexivity.
  apply contains_caseless. intros c Hc. simpl in Hc.
  assert (c = "-"%char) as -> by (repeat (destruct Hc as [<-|Hc]; [done|]); done).
  apply caseless_dash.
Qed.

(** X12: the free-domain rule matches exactly the URLs whose text ends, in
    any letter case, with .tk, .ml, .ga, .cf or .gq, a single final line
    feed apart: the ending of the whole URL counts, not that of the
    host. *)
Theorem tld_rule url :
  Re.search "\.tk$|\.ml$|\.ga$|\.cf$|\.gq$" url true
  = Some (existsb (λ w, StrMore.endswith w (Str.lower url)
                        || StrMore.endswith (w +:+ nl) (Str.lower url))
            [".tk"; ".ml"; ".ga"; ".cf"; ".gq"]).
Proof.
  rewrite (search_compiled _
             (alts ((λ w, word_then w (Seq Eol Eps))
                      <$> [".tk"; ".ml"; ".ga"; ".cf"; ".gq"])))
    by (vm_compute; reflexivity).
  f_equal. rewrite found_alts by done.
  cbn [fmap list_fmap existsb]. by rewrite !found_word_eol by reflexivity.
Qed.




End Rules.

(** ** The address rule *)

Module ReFacts3.
Import Re ReMore Str StrMore StrMoreFacts ReFacts ReFacts2.

Lemma in_bind {A B} (f : A → list B) (l : list A) u :
  In u (x ← l; f x) ↔ ∃ x, In x l ∧ In u (f x).
Proof.
  induction l as [|a l IH]; cbn [mbind list_bind In].
  - split; [done|by intros (?&[]&_)].
  - rewrite in_app_iff, IH. split.
    + intros [H|(x & Hx & H)]; eauto.
    + intros (x & [->|Hx] & H); eauto.
Qed.

Lemma nonempty_in {A} (l : list A) : nonempty l = true ↔ ∃ u, In u l.
Proof.
  destruct l as [|a l]; simpl; [split; [done|by intros [? []]]|].
  split; eauto.
Qed.

Lemma caseless_dot : caseless ".".
Proof. by_cases. Qed.

Lemma chr_dot_ends s u : In u (ends true (Chr ".") s) ↔ s = String "." u.
Proof.
  cbn [ends]. destruct s as [|x t]; [done|].
  unfold same. change (lower_char ".") with "."%char.
  rewrite ascii_eqb_sym, caseless_dot.
  destruct (Ascii.eqb_spec "." x) as [<-|Hx]; simpl.
  - split; [by intros [->|[]]|by intros [= ->]; left].
  - split; [done|]. intros [= ? _]. by destruct Hx.
Qed.

Lemma digit_ends ic s u :
  In u (ends ic (Digits "0" "9") s) ↔ ∃ x, s = String x u ∧ isdigit x = true.
Proof.
  cbn [ends]. destruct s as [|x t]; [split; [done|by intros (?&?&_)]|].
  change ((code "0" <=? code x) && (code x <=? code "9")) with (isdigit x).
  destruct (isdigit x) eqn:Hx; simpl.
  - split; [intros [->|[]]; eauto|]. intros (y & [= -> ->] & _). by left.
  - split; [done|]. intros (y & [= -> ->] & Hy). congruence.
Qed.

(** At most [n] further digits. *)
Lemma digits_upto ic n t u :
  In u (upto (ends ic (Digits "0" "9")) n t)
  ↔ ∃ g, t = g +:+ u ∧ Urllib.all_chars isdigit g = true ∧ String.length g ≤ n.
Proof.
  revert t. induction n as [|n IH]; intros t.
  - cbn [upto In]. split.
    + intros [<-|[]]. by exists "".
    + intros (g & -> & _ & Hl). destruct g; [by left|simpl in Hl; lia].
  - cbn [upto In]. rewrite in_bind. split.
    + intros [<-|(t' & Ht' & Hin)]; [exists ""; repeat split; simpl; lia|].
      apply list_elem_of_In, list_elem_of_filter in Ht' as [_ Ht'].
      apply list_elem_of_In, digit_ends in Ht' as (x & -> & Hx).
      apply IH in Hin as (g & -> & Hg & Hl).
      exists (String x g). rewrite sapp_cons. simpl. rewrite Hx, Hg.
      repeat split. lia.
    + intros (g & -> & Hg & Hl). destruct g as [|x g]; [by left|]. right.
      simpl in Hg. apply andb_true_iff in Hg as [Hx Hg].
      exists (g +:+ u). split.
      * apply list_elem_of_In, list_elem_of_filter. split; [simpl; lia|].
        apply list_elem_of_In, digit_ends. exists x. by rewrite sapp_cons.
      * apply IH. exists g. repeat split; [done|]. simpl in Hl. lia.
Qed.

(** [[0-9]{1,3}] takes one to three digits. *)
Lemma group_ends s u :
  In u (ends true (Rep (Digits "0" "9") 1 (Some 3)) s)
  ↔ ∃ g, s = g +:+ u ∧ digit_group g.
Proof.
  change (ends true (Rep (Digits "0" "9") 1 (Some 3)) s)
    with (t ← (t0 ← ends true (Digits "0" "9") s; [t0]);
          upto (ends true (Digits "0" "9")) 2 t).
  rewrite in_bind. unfold digit_group. split.
  - intros (t & Ht & Hu). apply in_bind in Ht as (t0 & Ht0 & [<-|[]]).
    apply digit_ends in Ht0 as (x & -> & Hx).
    apply digits_upto in Hu as (g & -> & Hg & Hl).
    exists (String x g). rewrite sapp_cons. simpl. rewrite Hx, Hg.
    repeat split; lia.
  - intros (g & -> & Hg & Hl1 & Hl3). destruct g as [|x g]; [simpl in Hl1; lia|].
    simpl in Hg. apply andb_true_iff in Hg as [Hx Hg].
    exists (g +:+ u). split.
    + apply in_bind. exists (g +:+ u). split; [|by left].
      apply digit_ends. exists x. by rewrite sapp_cons.
    + apply digits_upto. exists g. repeat split; [done|]. simpl in Hl3. lia.
Qed.

Lemma seq_ends r k s u :
  In u (ends true (Seq r k) s) ↔ ∃ t, In t (ends true r s) ∧ In u (ends true k t).
Proof.
  change (ends true (Seq r k) s) with (t ← ends true r s; ends true k t).
  apply in_bind.
Qed.

Lemma address_ends s u :
  In u (ends true address s)
  ↔ ∃ g1 g2 g3 g4,
      s = g1 +:+ "." +:+ g2 +:+ "." +:+ g3 +:+ "." +:+ g4 +:+ u
      ∧ digit_group g1 ∧ digit_group g2 ∧ digit_group g3 ∧ digit_group g4.
Proof.
  unfold address. split.
  - intros H.
    apply seq_ends in H as (t1 & H1 & H). apply group_ends in H1 as (g1 & -> & G1).
    apply seq_ends in H as (t2 & H2 & H). apply chr_dot_ends in H2 as ->.
    apply seq_ends in H as (t3 & H3 & H). apply group_ends in H3 as (g2 & -> & G2).
    apply seq_ends in H as (t4 & H4 & H). apply chr_dot_ends in H4 as ->.
    apply seq_ends in H as (t5 & H5 & H). apply group_ends in H5 as (g3 & -> & G3).
    apply seq_ends in H as (t6 & H6 & H). apply chr_dot_ends in H6 as ->.
    apply seq_ends in H as (t7 & H7 & H). apply group_ends in H7 as (g4 & -> & G4).
    destruct H as [<-|[]].
    by exists g1, g2, g3, g4.
  - intros (g1 & g2 & g3 & g4 & -> & G1 & G2 & G3 & G4).
    apply seq_ends. eexists. split; [apply group_ends; eauto|].
    apply seq_ends. eexists. split; [by apply chr_dot_ends|].
    apply seq_ends. eexists. split; [apply group_ends; eauto|].
    apply seq_ends. eexists. split; [by apply chr_dot_ends|].
    apply seq_ends. eexists. split; [apply group_ends; eauto|].
    apply seq_ends. eexists. split; [by apply chr_dot_ends|].
    apply seq_ends. eexists. split; [apply group_ends; eauto|].
    by left.
Qed.

End ReFacts3.

Section AddressRule.
Import StrMore ReMore ReFacts ReFacts2 ReFacts3.

(** X20: the address pattern matches exactly the strings that contain,
    anywhere, four groups of one to three decimal digits separated by
    single dots; the groups are not limited to 255 and need not be the
    host. *)
Theorem address_rule url :
  Re.search "[0-9]{1,3}\.[0-9]{1,3}\.[0-9]{1,3}\.[0-9]{1,3}" url true = Some true
  ↔ ∃ a g1 g2 g3 g4 c,
      url = a +:+ g1 +:+ "." +:+ g2 +:+ "." +:+ g3 +:+ "." +:+ g4 +:+ c
      ∧ digit_group g1 ∧ digit_group g2 ∧ digit_group g3 ∧ digit_group g4.
Proof.
  rewrite (search_compiled _ address) by (vm_compute; reflexivity).
  assert (∀ b, Some b = Some true ↔ b = true) as -> by (intros b; split; congruence).
  rewrite found_iff. split.
  - intros (a & t & -> & H). apply nonempty_in in H as (c & H).
    apply address_ends in H as (g1 & g2 & g3 & g4 & -> & G).
    by exists a, g1, g2, g3, g4, c.
  - intros (a & g1 & g2 & g3 & g4 & c & -> & G).
    eexists a, _. split; [reflexivity|].
    apply nonempty_in. exists c. apply address_ends. by exists g1, g2, g3, g4.
Qed.

End AddressRule.

(** * What the pattern scan records *)

Ltac differ n :=
  let H := fresh in
  intros H; apply (f_equal (String.get n)) in H; vm_compute in H; discriminate H.

Lemma matched_search pattern url :
  matched pattern url = true ↔ Re.search pattern url true = Some true.
Proof.
  unfold matched, Re.search. destruct (Re.compile pattern); simpl; [|done].
  split; [by intros ->|by intros [= ->]].
Qed.

Lemma in_pattern_warnings patterns url p :
  In ("Suspicious pattern detected: " +:+ p) (pattern_warnings patterns url)
  ↔ In p patterns ∧ matched p url = true.
Proof.
  unfold pattern_warnings. induction patterns as [|q ps IH].
  - simpl. tauto.
  - cbn [mbind list_bind In]. rewrite in_app_iff, IH. split.
    + intros [H|[H1 H2]]; [|tauto].
      destruct (matched q url) eqn:Hq; [|done].
      destruct H as [H|[]]. apply (inj (String.append _)) in H as ->. tauto.
    + intros [[->|H1] H2]; [|tauto]. left. rewrite H2. by left.
Qed.

Lemma pattern_warnings_head patterns url w :
  In w (pattern_warnings patterns url) → String.get 0 w = Some "S"%char.
Proof.
  unfold pattern_warnings. induction patterns as [|q ps IH]; [done|].
  cbn [mbind list_bind]. rewrite in_app_iff. intros [H|H]; [|by apply IH].
  destruct (matched q url); [|done]. by destruct H as [<-|[]].
Qed.

Section Scan.

Variable urlparse : string → exn + ParseResult.

Lemma scanned_classify σ s parsed :
  scanned urlparse s parsed →
  classify urlparse σ (PyStr s)
  = Return (verdict true
              (http_warnings (scheme parsed)
               ++ scan_warnings (Str.strip s) (Str.lower (netloc parsed))) []).
Proof.
  intros (Hs & Hp & Hm & Hd & Hb & Hw). apply classify_eq.
  rewrite issues_of_PyStr by done. unfold issues_of_str.
  rewrite Hp, Hm, Hb, Hw. cbn [negb].
  by destruct (String.eqb_spec (Str.lower (netloc parsed)) "").
Qed.

Lemma in_scan_pattern sch url domain p :
  In ("Suspicious pattern detected: " +:+ p)
     (http_warnings sch ++ scan_warnings url domain)
  ↔ In p SUSPICIOUS_PATTERNS ∧ Re.search p url true = Some true.
Proof.
  rewrite <- matched_search, <- in_pattern_warnings.
  unfold scan_warnings, http_warnings, length_warnings, subdomain_warnings.
  rewrite !in_app_iff. split; [|tauto].
  intros [H|[H|[H|H]]]; [exfalso|done|exfalso..].
  - destruct (String.eqb sch "http"); [|done].
    destruct H as [H|[]]. revert H. differ 0.
  - destruct (50 <? _); [|done]. destruct H as [H|[]]. revert H. differ 0.
  - destruct (5 <? _); [|done]. destruct H as [H|[]]. revert H. differ 0.
Qed.

(** X16: for a URL that reaches the pattern scan the verdict is safe, and
    the warning of a pattern is among its warnings exactly when the
    pattern is in the table and [re.search] finds it, ignoring case, in
    the stripped URL. *)
Theorem scan_records σ s parsed :
  scanned urlparse s parsed →
  ∃ v, classify urlparse σ (PyStr s) = Return v
       ∧ v_safe v = true ∧ v_errors v = []
       ∧ ∀ p, In ("Suspicious pattern detected: " +:+ p) (v_warnings v)
              ↔ In p SUSPICIOUS_PATTERNS
                ∧ Re.search p (Str.strip s) true = Some true.
Proof.
  intros H. eexists. split; [by apply scanned_classify|].
  split; [reflexivity|]. split; [reflexivity|].
  intros p. apply in_scan_pattern.
Qed.

(** X17: for a URL that reaches the pattern scan, the free-domain warning
    is recorded exactly when the stripped URL as a whole ends, in any
    letter case, with .tk, .ml, .ga, .cf or .gq; a URL with such a host
    followed by a path, query or port does not get it. *)
Theorem tld_warning σ s parsed :
  scanned urlparse s parsed →
  ∃ v, classify urlparse σ (PyStr s) = Return v
       ∧ (In "Suspicious pattern detected: \.tk$|\.ml$|\.ga$|\.cf$|\.gq$" (v_warnings v)
          ↔ existsb (λ w, StrMore.endswith w (Str.lower (Str.strip s)))
              [".tk"; ".ml"; ".ga"; ".cf"; ".gq"] = true).
Proof.
  intros H. eexists. split; [by apply scanned_classify|].
  cbn [v_warnings verdict].
  change "Suspicious pattern detected: \.tk$|\.ml$|\.ga$|\.cf$|\.gq$"
    with ("Suspicious pattern detected: " +:+ "\.tk$|\.ml$|\.ga$|\.cf$|\.gq$").
  rewrite in_scan_pattern.
  rewrite (ReFacts.search_compiled _
             (ReMore.alts ((λ w, ReMore.word_then w (Re.Seq Re.Eol Re.Eps))
                             <$> [".tk"; ".ml"; ".ga"; ".cf"; ".gq"])))
    by (vm_compute; reflexivity).
  rewrite ReFacts.found_alts by done.
  cbn [fmap list_fmap existsb].
  rewrite !ReFacts2.found_word_eol by reflexivity.
  assert (Str.rstrip (Str.strip s) = Str.strip s) as Hr
    by apply StrFacts.rstrip_idem.
  rewrite !(ReFacts2.endswith_nl_stripped _ _ Hr), !orb_false_r.
  split; [by intros [_ [= ->]]|].
  intros ->. split; [|done]. unfold SUSPICIOUS_PATTERNS. simpl. tauto.
Qed.

(** X18: for a URL that reaches the pattern scan, the subdomain warning is
    recorded exactly when the lower-cased host holds five dots or more,
    and it reports the number of dot-separated parts. *)
Theorem subdomain_warning σ s parsed :
  scanned urlparse s parsed →
  ∃ v, classify urlparse σ (PyStr s) = Return v
       ∧ (In ("Excessive subdomains: "
              +:+ Str.of_nat (S (StrMore.count "." (Str.lower (netloc parsed))))
              +:+ " levels") (v_warnings v)
          ↔ 5 ≤ StrMore.count "." (Str.lower (netloc parsed))).
Proof.
  intros H. eexists. split; [by apply scanned_classify|].
  cbn [v_warnings verdict].
  unfold scan_warnings, http_warnings, length_warnings, subdomain_warnings.
  rewrite split_length, !in_app_iff. split.
  - intros [Hi|[Hi|[Hi|Hi]]].
    + exfalso. destruct (String.eqb _ "http"); [|done].
      destruct Hi as [Hi|[]]. revert Hi. differ 0.
    + exfalso. apply pattern_warnings_head in Hi. vm_compute in Hi. discriminate Hi.
    + exfalso. destruct (50 <? _); [|done].
      destruct Hi as [Hi|[]]. revert Hi. differ 0.
    + destruct (5 <? _) eqn:Hn; [|done]. apply Nat.ltb_lt in Hn. lia.
  - intros Hn. right. right. right.
    assert ((5 <? S (StrMore.count "." (Str.lower (netloc parsed)))) = true) as ->
      by (apply Nat.ltb_lt; lia).
    by left.
Qed.

(** X19: for a URL that reaches the pattern scan, the long-domain warning
    is recorded exactly when the host is longer than 50 characters, and
    it reports that length. *)
Theorem long_domain_warning σ s parsed :
  scanned urlparse s parsed →
  ∃ v, classify urlparse σ (PyStr s) = Return v
       ∧ (In ("Unusually long domain: "
              +:+ Str.of_nat (String.length (Str.lower (netloc parsed)))
              +:+ " characters") (v_warnings v)
          ↔ 50 < String.length (Str.lower (netloc parsed))).
Proof.
  intros H. eexists. split; [by apply scanned_classify|].
  cbn [v_warnings verdict].
  unfold scan_warnings, http_warnings, length_warnings, subdomain_warnings.
  rewrite !in_app_iff. split.
  - intros [Hi|[Hi|[Hi|Hi]]].
    + exfalso. destruct (String.eqb _ "http"); [|done].
      destruct Hi as [Hi|[]]. revert Hi. differ 1.
    + exfalso. apply pattern_warnings_head in Hi. vm_compute in Hi. discriminate Hi.
    + destruct (50 <? _) eqn:Hn; [|done]. by apply Nat.ltb_lt in Hn.
    + exfalso. destruct (5 <? _); [|done].
      destruct Hi as [Hi|[]]. revert Hi. differ 0.
  - intros Hn. right. right. left.
    apply Nat.ltb_lt in Hn. rewrite Hn. by left.
Qed.

End Scan.

(** * Instances of the further properties *)

(** X2 at "ftp://example.com". *)
Lemma invalid_scheme_witness :
  ("ftp://example.com" ≠ EmptyString
   ∧ Urllib.urlparse (Str.strip "ftp://example.com")
     = inr {| scheme := "ftp"; netloc := "example.com" |}
   ∧ Str.mem "ftp" ["http"; "https"] = false)
  ∧ classify Urllib.urlparse URLSafetyChecker (PyStr "ftp://example.com")
    = Return {| v_safe := false; v_suspicious := false; v_warnings := [];
                v_errors := ["Invalid scheme: ftp (only http/https allowed)"] |}.
Proof.
  assert ("ftp://example.com" ≠ EmptyString) as H1 by discriminate.
  assert (Urllib.urlparse (Str.strip "ftp://example.com")
          = inr {| scheme := "ftp"; netloc := "example.com" |}) as H2
    by (vm_compute; reflexivity).
  assert (Str.mem "ftp" ["http"; "https"] = false) as H3 by (vm_compute; reflexivity).
  split; [by repeat split|].
  exact (invalid_scheme Urllib.urlparse URLSafetyChecker "ftp://example.com"
           {| scheme := "ftp"; netloc := "example.com" |} H1 H2 H3).
Defined.

(** X3 at "http:/example.com/page", where one slash is missing. *)
Lemma no_domain_witness :
  ("http:/example.com/page" ≠ EmptyString
   ∧ Urllib.urlparse (Str.strip "http:/example.com/page")
     = inr {| scheme := "http"; netloc := "" |}
   ∧ Str.mem "http" ["http"; "https"] = true
   ∧ "" = EmptyString)
  ∧ classify Urllib.urlparse URLSafetyChecker (PyStr "http:/example.com/page")
    = Return {| v_safe := false; v_suspicious := true;
                v_warnings := ["Uses HTTP (not HTTPS) - may be insecure"];
                v_errors := ["No domain found in URL"] |}.
Proof.
  assert ("http:/example.com/page" ≠ EmptyString) as H1 by discriminate.
  assert (Urllib.urlparse (Str.strip "http:/example.com/page")
          = inr {| scheme := "http"; netloc := "" |}) as H2
    by (vm_compute; reflexivity).
  assert (Str.mem "http" ["http"; "https"] = true) as H3 by (vm_compute; reflexivity).
  assert ("" = EmptyString) as H4 by reflexivity.
  split; [by repeat split|].
  exact (no_domain Urllib.urlparse URLSafetyChecker "http:/example.com/page"
           {| scheme := "http"; netloc := "" |} H1 H2 H3 H4).
Defined.

(** X4 at "http://[::1", whose bracket is not closed. *)
Lemma parse_failure_witness :
  ("http://[::1" ≠ EmptyString
   ∧ Urllib.urlparse (Str.strip "http://[::1") = inl (ValueError "Invalid IPv6 URL"))
  ∧ classify Urllib.urlparse URLSafetyChecker (PyStr "http://[::1")
    = Return {| v_safe := false; v_suspicious := false; v_warnings := [];
                v_errors := ["Failed to parse URL: Invalid IPv6 URL"] |}.
Proof.
  assert ("http://[::1" ≠ EmptyString) as H1 by discriminate.
  assert (Urllib.urlparse (Str.strip "http://[::1")
          = inl (ValueError "Invalid IPv6 URL")) as H2 by (vm_compute; reflexivity).
  split; [by split|].
  exact (parse_failure Urllib.urlparse URLSafetyChecker "http://[::1"
           (ValueError "Invalid IPv6 URL") H1 H2).
Defined.

(** X5 at "http://github.com/some/repo". *)
Lemma whitelisted_http_warns_witness :
  ("http://github.com/some/repo" ≠ EmptyString
   ∧ Urllib.urlparse (Str.strip "http://github.com/some/repo")
     = inr {| scheme := "http"; netloc := "github.com" |}
   ∧ "http" = "http"
   ∧ (∀ blocked, blocked ∈ BLOCKLIST →
        Str.contains blocked (Str.lower "github.com") = false)
   ∧ "github.com" ∈ WHITELIST
   ∧ Str.contains "github.com" (Str.lower "github.com") = true)
  ∧ classify Urllib.urlparse URLSafetyChecker (PyStr "http://github.com/some/repo")
    = Return {| v_safe := true; v_suspicious := true;
                v_warnings := ["Uses HTTP (not HTTPS) - may be insecure"];
                v_errors := [] |}.
Proof.
  assert ("http://github.com/some/repo" ≠ EmptyString) as H1 by discriminate.
  assert (Urllib.urlparse (Str.strip "http://github.com/some/repo")
          = inr {| scheme := "http"; netloc := "github.com" |}) as H2
    by (vm_compute; reflexivity).
  assert ("http" = "http") as H3 by reflexivity.
  assert (∀ blocked, blocked ∈ BLOCKLIST →
            Str.contains blocked (Str.lower "github.com") = false) as H4.
  { intros blocked Hb. unfold BLOCKLIST in Hb.
    apply list_elem_of_In in Hb. simpl in Hb.
    destruct Hb as [<-|[<-|[]]]; vm_compute; reflexivity. }
  assert ("github.com" ∈ WHITELIST) as H5 by (unfold WHITELIST; repeat constructor).
  assert (Str.contains "github.com" (Str.lower "github.com") = true) as H6
    by (vm_compute; reflexivity).
  split; [by repeat split|].
  exact (whitelisted_http_warns Urllib.urlparse URLSafetyChecker
           "http://github.com/some/repo"
           {| scheme := "http"; netloc := "github.com" |}
           "github.com" H1 H2 H3 H4 H5 H6).
Defined.

(** A URL that reaches the pattern scan: six dots in the host, a free
    top-level domain at the very end. *)
Lemma scanned_example :
  scanned Urllib.urlparse "https://a.b.c.d.e.example.tk"
    {| scheme := "https"; netloc := "a.b.c.d.e.example.tk" |}.
Proof.
  unfold scanned.
  split; [discriminate|].
  split; [vm_compute; reflexivity|].
  split; [vm_compute; reflexivity|].
  split; [vm_compute; discriminate|].
  split; vm_compute; reflexivity.
Defined.

(** X16 at that URL. *)
Lemma scan_records_witness :
  scanned Urllib.urlparse "https://a.b.c.d.e.example.tk"
    {| scheme := "https"; netloc := "a.b.c.d.e.example.tk" |}
  ∧ ∃ v, classify Urllib.urlparse URLSafetyChecker
           (PyStr "https://a.b.c.d.e.example.tk") = Return v
         ∧ v_safe v = true ∧ v_errors v = []
         ∧ ∀ p, In ("Suspicious pattern detected: " +:+ p) (v_warnings v)
                ↔ In p SUSPICIOUS_PATTERNS
                  ∧ Re.search p (Str.strip "https://a.b.c.d.e.example.tk") true
                    = Some true.
Proof.
  split; [exact scanned_example|].
  exact (scan_records Urllib.urlparse URLSafetyChecker _ _ scanned_example).
Defined.

(** X17 at that URL. *)
Lemma tld_warning_witness :
  scanned Urllib.urlparse "https://a.b.c.d.e.example.tk"
    {| scheme := "https"; netloc := "a.b.c.d.e.example.tk" |}
  ∧ ∃ v, classify Urllib.urlparse URLSafetyChecker
           (PyStr "https://a.b.c.d.e.example.tk") = Return v
         ∧ (In "Suspicious pattern detected: \.tk$|\.ml$|\.ga$|\.cf$|\.gq$"
              (v_warnings v)
            ↔ existsb (λ w, StrMore.endswith w
                              (Str.lower (Str.strip "https://a.b.c.d.e.example.tk")))
                [".tk"; ".ml"; ".ga"; ".cf"; ".gq"] = true).
Proof.
  split; [exact scanned_example|].
  exact (tld_warning Urllib.urlparse URLSafetyChecker _ _ scanned_example).
Defined.

(** X18 at that URL. *)
Lemma subdomain_warning_witness :
  scanned Urllib.urlparse "https://a.b.c.d.e.example.tk"
    {| scheme := "https"; netloc := "a.b.c.d.e.example.tk" |}
  ∧ ∃ v, classify Urllib.urlparse URLSafetyChecker
           (PyStr "https://a.b.c.d.e.example.tk") = Return v
         ∧ (In ("Excessive subdomains: "
                +:+ Str.of_nat (S (StrMore.count "." (Str.lower "a.b.c.d.e.example.tk")))
                +:+ " levels") (v_warnings v)
            ↔ 5 ≤ StrMore.count "." (Str.lower "a.b.c.d.e.example.tk")).
Proof.
  split; [exact scanned_example|].
  exact (subdomain_warning Urllib.urlparse URLSafetyChecker _ _ scanned_example).
Defined.

(** X19 at that URL. *)
Lemma long_domain_warning_witness :
  scanned Urllib.urlparse "https://a.b.c.d.e.example.tk"
    {| scheme := "https"; netloc := "a.b.c.d.e.example.tk" |}
  ∧ ∃ v, classify Urllib.urlparse URLSafetyChecker
           (PyStr "https://a.b.c.d.e.example.tk") = Return v
         ∧ (In ("Unusually long domain: "
                +:+ Str.of_nat (String.length (Str.lower "a.b.c.d.e.example.tk"))
                +:+ " characters") (v_warnings v)
            ↔ 50 < String.length (Str.lower "a.b.c.d.e.example.tk")).
Proof.
  split; [exact scanned_example|].
  exact (long_domain_warning Urllib.urlparse URLSafetyChecker _ _ scanned_example).
Defined.

(** * The URLs of a page *)

Module SiteUrlsFacts.
Import SiteUrls.

Lemma unique_loop_acc urls seen acc :
  unique_loop urls seen acc = acc ++ unique_loop urls seen [].
Proof.
  revert seen acc. induction urls as [|u rest IH]; intros seen acc.
  - by rewrite app_nil_r.
  - cbn [unique_loop]. destruct (decide (u ∈ seen)); [apply IH|].
    rewrite (IH _ (acc ++ [u])), (IH _ ([] ++ [u])). by rewrite <- app_assoc.
Qed.

Lemma unique_loop_cons u rest seen :
  unique_loop (u :: rest) seen []
  = if decide (u ∈ seen) then unique_loop rest seen []
    else u :: unique_loop rest ({[u]} ∪ seen) [].
Proof.
  cbn [unique_loop]. destruct (decide (u ∈ seen)); [done|].
  by rewrite unique_loop_acc.
Qed.

(** The loop keeps the URLs not seen before. *)
Lemma elem_unique_loop urls seen x :
  x ∈ unique_loop urls seen [] ↔ x ∈ urls ∧ x ∉ seen.
Proof.
  revert seen. induction urls as [|u rest IH]; intros seen.
  - cbn [unique_loop]. split; [by intros ?%elem_of_nil|by intros [?%elem_of_nil _]].
  - rewrite unique_loop_cons. destruct (decide (u ∈ seen)) as [Hu|Hu].
    + rewrite IH, elem_of_cons. split; [tauto|].
      intros [[->|H] Hx]; [done|tauto].
    + rewrite !elem_of_cons, IH, not_elem_of_union, not_elem_of_singleton.
      split; [intros [->|(?&?&?)]; tauto|].
      destruct (decide (x = u)); tauto.
Qed.

Lemma NoDup_unique_loop urls seen : NoDup (unique_loop urls seen []).
Proof.
  revert seen. induction urls as [|u rest IH]; intros seen.
  - constructor.
  - rewrite unique_loop_cons. destruct (decide (u ∈ seen)); [apply IH|].
    constructor; [|apply IH].
    rewrite elem_unique_loop, not_elem_of_union, not_elem_of_singleton. tauto.
Qed.

(** The loop works from left to right: what it keeps of a prefix does not
    depend on what follows. *)
Lemma unique_loop_app l1 l2 seen :
  unique_loop (l1 ++ l2) seen []
  = unique_loop l1 seen [] ++ unique_loop l2 (seen ∪ list_to_set l1) [].
Proof.
  revert seen. induction l1 as [|u l1 IH]; intros seen.
  - cbn [app unique_loop list_to_set]. by rewrite (right_id_L ∅ (∪)).
  - rewrite <- app_comm_cons, !unique_loop_cons.
    destruct (decide (u ∈ seen)) as [Hu|Hu]; rewrite IH.
    + do 2 f_equal. cbn [list_to_set]. set_solver.
    + cbn [app]. do 3 f_equal. cbn [list_to_set]. set_solver.
Qed.

End SiteUrlsFacts.

Section ExtractFacts.
Import SiteUrls SiteUrlsFacts.

Variable findall : string → string → list string.

(** X21: from a readable page [extract_urls_from_html] returns every URL
    found by one of its three searches, each exactly once, and nothing
    else. *)
Theorem extract_unique file_path content :
  NoDup (extract_urls_from_html findall file_path (inr content)).2
  ∧ ∀ u, u ∈ (extract_urls_from_html findall file_path (inr content)).2
         ↔ u ∈ findall href_pattern content
           ∨ u ∈ findall src_pattern content
           ∨ u ∈ findall url_pattern content.
Proof.
  cbn [extract_urls_from_html snd]. split; [apply NoDup_unique_loop|].
  intros u. rewrite elem_unique_loop, !elem_of_app. set_solver.
Qed.

(** X22: the returned list keeps the order of first occurrences: a URL
    stands in the result where it is first found, after exactly the URLs
    found before it. *)
Theorem extract_first_occurrence file_path content l1 u l2 :
  findall href_pattern content ++ findall src_pattern content
    ++ findall url_pattern content = l1 ++ u :: l2 →
  u ∉ l1 →
  ∃ r1 r2,
    (extract_urls_from_html findall file_path (inr content)).2 = r1 ++ u :: r2
    ∧ ∀ x, x ∈ r1 ↔ x ∈ l1.
Proof.
  intros Hl Hu. cbn [extract_urls_from_html snd]. rewrite Hl.
  rewrite unique_loop_app, unique_loop_cons.
  destruct (decide (u ∈ ∅ ∪ list_to_set l1)) as [Hin|_]; [set_solver|].
  eexists _, _. split; [reflexivity|].
  intros x. rewrite elem_unique_loop. set_solver.
Qed.

End ExtractFacts.

(** X22 with a search that finds the same address twice. *)
Lemma extract_first_occurrence_witness :
  ((λ _ _ : string, ["https://a.org"; "https://b.org"; "https://a.org"])
     SiteUrls.href_pattern "page"
   ++ (λ _ _ : string, ["https://a.org"; "https://b.org"; "https://a.org"])
        SiteUrls.src_pattern "page"
   ++ (λ _ _ : string, ["https://a.org"; "https://b.org"; "https://a.org"])
        SiteUrls.url_pattern "page"
   = ["https://a.org"] ++ "https://b.org"
       :: ["https://a.org"; "https://a.org"; "https://b.org"; "https://a.org";
           "https://a.org"; "https://b.org"; "https://a.org"]
   ∧ "https://b.org" ∉ ["https://a.org"])
  ∧ ∃ r1 r2,
      (SiteUrls.extract_urls_from_html
         (λ _ _, ["https://a.org"; "https://b.org"; "https://a.org"])
         "index.html" (inr "page")).2 = r1 ++ "https://b.org" :: r2
      ∧ ∀ x, x ∈ r1 ↔ x ∈ ["https://a.org"].
Proof.
  assert ((λ _ _ : string, ["https://a.org"; "https://b.org"; "https://a.org"])
            SiteUrls.href_pattern "page"
          ++ (λ _ _ : string, ["https://a.org"; "https://b.org"; "https://a.org"])
               SiteUrls.src_pattern "page"
          ++ (λ _ _ : string, ["https://a.org"; "https://b.org"; "https://a.org"])
               SiteUrls.url_pattern "page"
          = ["https://a.org"] ++ "https://b.org"
              :: ["https://a.org"; "https://a.org"; "https://b.org"; "https://a.org";
                  "https://a.org"; "https://b.org"; "https://a.org"]) as H1
    by reflexivity.
  assert ("https://b.org" ∉ ["https://a.org"]) as H2.
  { intros H. apply list_elem_of_In in H. simpl in H. destruct H as [H|[]].
    discriminate H. }
  split; [by split|].
  exact (extract_first_occurrence
           (λ _ _, ["https://a.org"; "https://b.org"; "https://a.org"])
           "index.html" "page" _ _ _ H1 H2).
Defined.

(** * The command line *)

Module CliFacts.
Import Cli.

Lemma in_fmap {A B} (f : A → B) (l : list A) y :
  In y (f <$> l) ↔ ∃ x, y = f x ∧ In x l.
Proof.
  induction l as [|a l IH]; cbn [fmap list_fmap In].
  - split; [done|by intros (?&_&[])].
  - change (list_fmap A B f l) with (f <$> l). rewrite IH. split.
    + intros [<-|(x & -> & Hx)]; eauto.
    + intros (x & -> & [->|Hx]); eauto.
Qed.

Lemma length_fmap' {A B} (f : A → B) (l : list A) : length (f <$> l) = length l.
Proof. induction l as [|a l IH]; [done|]. cbn. f_equal. apply IH. Qed.

Lemma filter_positive {A} (f : A → bool) (l : list A) :
  (0 <? length (List.filter f l)) = existsb f l.
Proof.
  induction l as [|a l IH]; [done|]. simpl. by destruct (f a).
Qed.

Lemma filter_split_length {A} (f : A → bool) (l : list A) :
  length (List.filter f l) + length (List.filter (λ x, negb (f x)) l) = length l.
Proof.
  induction l as [|a l IH]; [done|]. simpl. destruct (f a); simpl; lia.
Qed.

Lemma filter_and_length {A} (g f : A → bool) (l : list A) :
  length (List.filter (λ x, g x && f x) l) ≤ length (List.filter f l).
Proof.
  induction l as [|a l IH]; [done|]. simpl.
  destruct (g a), (f a); simpl; lia.
Qed.

Lemma Forall2_same_length {A B} (R : A → B → Prop) l k :
  Forall2 R l k → length l = length k.
Proof. induction 1; simpl; congruence. Qed.

Section Tool.

Variable urlparse : string → exn + ParseResult.

(** The dictionary [check_url] returns holds the safe flag of the verdict. *)
Lemma check_url_returns url σ :
  ∃ result σ' v,
    check_url urlparse url σ = (Return result, σ')
    ∧ (∀ σ0, classify urlparse σ0 url = Return v)
    ∧ safe result = v_safe v.
Proof.
  destruct (verdict_exists urlparse url) as (b & W & E & H).
  exists (dict (heap σ) b W E), (st (heap σ) W E), (verdict b W E).
  split; [by apply check_url_run|]. split; [|done].
  intros σ0. by apply classify_eq.
Qed.

Lemma interactive_loop_ending stdin σ :
  (interactive_loop urlparse stdin σ).2
  = if existsb stops stdin then None else Some "EOFError".
Proof.
  revert σ. induction stdin as [|e stdin IH]; intros σ; [done|].
  destruct e as [s|]; [|done].
  cbn [interactive_loop existsb stops].
  destruct (Str.mem (Str.lower (Str.strip s)) ["quit"; "exit"; "q"]); [done|].
  cbn [orb].
  destruct (String.eqb (Str.strip s) "").
  - specialize (IH σ). by destruct (interactive_loop urlparse stdin σ).
  - destruct (check_url_returns (PyStr (Str.strip s)) σ) as (d & σ' & v & -> & _).
    specialize (IH σ'). by destruct (interactive_loop urlparse stdin σ').
Qed.

(** The safe flags in the results of a batch are those of the verdicts of
    its inputs. *)
Lemma batch_unsafe σ' σ0 (us : list pyval) (rs : list (pyval * result)) :
  Forall2 (λ u (r : pyval * result),
             r.1 = u ∧ ∃ b W E, issues_of urlparse u = (b, W, E)
                                ∧ view σ' r.2 = verdict b W E) us rs →
  existsb (λ ur : pyval * result, negb (safe ur.2)) rs = true
  ↔ ∃ u v, In u us ∧ classify urlparse σ0 u = Return v ∧ v_safe v = false.
Proof.
  induction 1 as [|u r us rs (Hu & b & W & E & Hi & Hv) _ IH].
  - split; [done|by intros (?&?&[]&_)].
  - pose proof (classify_eq urlparse u σ0 _ _ _ Hi) as Hc.
    assert (safe r.2 = v_safe (verdict b W E)) as Hs by (by rewrite <- Hv).
    cbn [existsb]. rewrite orb_true_iff, IH, Hs. split.
    + intros [Hn|(u' & v & Hin & Hcl & Hsf)].
      * exists u, (verdict b W E). split; [by left|]. split; [done|].
        by destruct (v_safe _).
      * exists u', v. split; [by right|done].
    + intros (u' & v & [<-|Hin] & Hcl & Hsf).
      * left. rewrite Hc in Hcl. injection Hcl as <-. by rewrite Hsf.
      * right. by exists u', v.
Qed.

(** X23: in single-URL mode the tool exits with status 1 when the verdict
    of the argument is unsafe and with status 0 otherwise, suspicious or
    not. *)
Theorem single_exit_status prog url rest fs stdin :
  url ≠ "--interactive" → url ≠ "--batch" →
  ∃ out v,
    classify urlparse URLSafetyChecker (PyStr url) = Return v
    ∧ main urlparse (prog :: url :: rest) fs stdin
      = (out, Exit (if v_safe v then 0 else 1)).
Proof.
  intros H1 H2. unfold main.
  apply String.eqb_neq in H1, H2. rewrite H1, H2.
  destruct (check_url_returns (PyStr url) URLSafetyChecker)
    as (d & σ' & v & -> & Hc & ->).
  destruct (v_safe v) eqn:Hv; cbn [negb].
  - destruct (suspicious d); eexists _, v; (split; [done|]); by rewrite Hv.
  - eexists _, v. split; [done|]. by rewrite Hv.
Qed.

(** X24: in batch mode, with a file that can be read, the tool exits with
    status 1 exactly when some line of the file that is not blank holds,
    once stripped, a URL with an unsafe verdict; otherwise it exits with
    status 0.  Blank lines are not checked. *)
Theorem batch_exit_status prog filename rest fs stdin lines :
  fs filename = Lines lines →
  ∃ out code,
    main urlparse (prog :: "--batch" :: filename :: rest) fs stdin = (out, Exit code)
    ∧ (code = 0 ∨ code = 1)
    ∧ (code = 1 ↔
       ∃ line v, In line lines ∧ Str.strip line ≠ EmptyString
                 ∧ classify urlparse URLSafetyChecker (PyStr (Str.strip line)) = Return v
                 ∧ v_safe v = false).
Proof.
  intros Hfs. unfold main.
  change (String.eqb "--batch" "--interactive") with false.
  change (String.eqb "--batch" "--batch") with true.
  cbv iota. rewrite Hfs. cbv zeta.
  set (urls := Str.strip <$> List.filter _ lines).
  destruct (check_batch_loop_run urlparse (PyStr <$> urls) [] URLSafetyChecker)
    as (rs & σ' & h' & Hrun & _ & Hrs).
  unfold check_batch. rewrite Hrun. cbn [app].
  rewrite filter_positive.
  pose proof (batch_unsafe σ' URLSafetyChecker _ _ Hrs) as Hex.
  assert ((∃ u v, In u (PyStr <$> urls)
                  ∧ classify urlparse URLSafetyChecker u = Return v ∧ v_safe v = false)
          ↔ ∃ line v, In line lines ∧ Str.strip line ≠ EmptyString
                      ∧ classify urlparse URLSafetyChecker (PyStr (Str.strip line)) = Return v
                      ∧ v_safe v = false) as Hlines.
  { split.
    - intros (u & v & Hin & Hc & Hs).
      apply in_fmap in Hin as (t & -> & Hin).
      apply in_fmap in Hin as (line & -> & Hin).
      apply filter_In in Hin as [Hin Hnb].
      exists line, v. repeat split; try done.
      intros Hb. rewrite Hb in Hnb. discriminate Hnb.
    - intros (line & v & Hin & Hnb & Hc & Hs).
      exists (PyStr (Str.strip line)), v. repeat split; try done.
      apply in_fmap. eexists. split; [reflexivity|].
      apply in_fmap. eexists. split; [reflexivity|].
      apply filter_In. split; [done|].
      by destruct (String.eqb_spec (Str.strip line) ""). }
  destruct (existsb (λ ur : pyval * result, negb (safe ur.2)) rs) eqn:Hx;
    eexists _, _; (split; [reflexivity|]); (split; [auto|]);
    rewrite <- Hlines, <- Hex, ?Hx; split; done.
Qed.

(** X25: the counts of the batch report add up: the URLs counted as safe
    and those counted as unsafe make up the non-blank lines of the file,
    and the URLs counted as suspicious are among those counted as safe. *)
Theorem batch_report_counts prog filename rest fs stdin lines :
  fs filename = Lines lines →
  ∃ n safe_count suspicious_count unsafe_count tail ending,
    main urlparse (prog :: "--batch" :: filename :: rest) fs stdin
    = (Stdout.print (Stdout.nl +:+ StrMore.mul "=" 60)
       ++ Stdout.print ("Checked " +:+ Str.of_nat n +:+ " URLs")
       ++ Stdout.print ("  ✅ Safe: " +:+ Str.of_nat safe_count)
       ++ Stdout.print ("  ⚠️  Suspicious: " +:+ Str.of_nat suspicious_count)
       ++ Stdout.print ("  ❌ Unsafe: " +:+ Str.of_nat unsafe_count)
       ++ tail, ending)
    ∧ n = length (List.filter (λ line, negb (String.eqb (Str.strip line) "")) lines)
    ∧ safe_count + unsafe_count = n
    ∧ suspicious_count ≤ safe_count.
Proof.
  intros Hfs. unfold main.
  change (String.eqb "--batch" "--interactive") with false.
  change (String.eqb "--batch" "--batch") with true.
  cbv iota. rewrite Hfs. cbv zeta.
  set (urls := Str.strip <$> List.filter _ lines).
  destruct (check_batch_loop_run urlparse (PyStr <$> urls) [] URLSafetyChecker)
    as (rs & σ' & h' & Hrun & _ & Hrs).
  unfold check_batch. rewrite Hrun. cbn [app].
  apply Forall2_same_length in Hrs. rewrite !length_fmap' in Hrs.
  assert (length urls
          = length (List.filter (λ line, negb (String.eqb (Str.strip line) "")) lines))
    as Hn by apply length_fmap'.
  destruct (0 <? _); rewrite <- ?app_assoc;
    eexists _, _, _, _, _, _; (split; [reflexivity|]);
    (split; [exact Hn|]);
    (split; [rewrite Hrs; apply filter_split_length|apply filter_and_length]).
Qed.

(** X26: an interactive session ends with status 0 exactly when a line
    reading quit, exit or q (in any letter case, blanks around it
    ignored) or a keyboard interrupt arrives; when the input ends without
    one, [input] raises EOFError, which the tool does not catch. *)
Theorem interactive_ending prog rest fs stdin :
  ∃ out,
    main urlparse (prog :: "--interactive" :: rest) fs stdin
    = (out, if existsb stops stdin then Exit 0 else Uncaught "EOFError").
Proof.
  unfold main. change (String.eqb "--interactive" "--interactive") with true.
  cbv iota. unfold interactive_mode.
  pose proof (interactive_loop_ending stdin (__init__ URLSafetyChecker).2) as H.
  destruct (interactive_loop urlparse stdin _) as [out r]. simpl in H. subst r.
  eexists. by destruct (existsb stops stdin).
Qed.

End Tool.

End CliFacts.

(** X23 at "http://example.com". *)
Lemma single_exit_status_witness :
  ("http://example.com" ≠ "--interactive" ∧ "http://example.com" ≠ "--batch")
  ∧ ∃ out v,
      classify Urllib.urlparse URLSafetyChecker (PyStr "http://example.com") = Return v
      ∧ Cli.main Urllib.urlparse ["check_url_safety.py"; "http://example.com"]
          (λ _, Cli.NotFound) []
        = (out, Cli.Exit (if v_safe v then 0 else 1)).
Proof.
  assert ("http://example.com" ≠ "--interactive") as H1 by discriminate.
  assert ("http://example.com" ≠ "--batch") as H2 by discriminate.
  split; [by split|].
  exact (CliFacts.single_exit_status Urllib.urlparse "check_url_safety.py"
           "http://example.com" [] (λ _, Cli.NotFound) [] H1 H2).
Defined.

(** X24 on a file of three lines, one of them blank, one with a scheme
    that is not allowed. *)
Lemma batch_exit_status_witness :
  (λ _ : string,
     Cli.Lines ["https://github.com/a" +:+ Stdout.nl; Stdout.nl;
                "ftp://example.com" +:+ Stdout.nl]) "urls.txt"
  = Cli.Lines ["https://github.com/a" +:+ Stdout.nl; Stdout.nl;
               "ftp://example.com" +:+ Stdout.nl]
  ∧ ∃ out code,
      Cli.main Urllib.urlparse ["check_url_safety.py"; "--batch"; "urls.txt"]
        (λ _, Cli.Lines ["https://github.com/a" +:+ Stdout.nl; Stdout.nl;
                         "ftp://example.com" +:+ Stdout.nl]) []
      = (out, Cli.Exit code)
      ∧ (code = 0 ∨ code = 1)
      ∧ (code = 1 ↔
         ∃ line v,
           In line ["https://github.com/a" +:+ Stdout.nl; Stdout.nl;
                    "ftp://example.com" +:+ Stdout.nl]
           ∧ Str.strip line ≠ EmptyString
           ∧ classify Urllib.urlparse URLSafetyChecker (PyStr (Str.strip line)) = Return v
           ∧ v_safe v = false).
Proof.
  assert ((λ _ : string,
             Cli.Lines ["https://github.com/a" +:+ Stdout.nl; Stdout.nl;
                        "ftp://example.com" +:+ Stdout.nl]) "urls.txt"
          = Cli.Lines ["https://github.com/a" +:+ Stdout.nl; Stdout.nl;
                       "ftp://example.com" +:+ Stdout.nl]) as H by reflexivity.
  split; [exact H|].
  exact (CliFacts.batch_exit_status Urllib.urlparse "check_url_safety.py" "urls.txt" []
           (λ _, Cli.Lines ["https://github.com/a" +:+ Stdout.nl; Stdout.nl;
                            "ftp://example.com" +:+ Stdout.nl]) [] _ H).
Defined.

(** X25 on the same file. *)
Lemma batch_report_counts_witness :
  (λ _ : string,
     Cli.Lines ["https://github.com/a" +:+ Stdout.nl; Stdout.nl;
                "ftp://example.com" +:+ Stdout.nl]) "urls.txt"
  = Cli.Lines ["https://github.com/a" +:+ Stdout.nl; Stdout.nl;
               "ftp://example.com" +:+ Stdout.nl]
  ∧ ∃ n safe_count suspicious_count unsafe_count tail ending,
      Cli.main Urllib.urlparse ["check_url_safety.py"; "--batch"; "urls.txt"]
        (λ _, Cli.Lines ["https://github.com/a" +:+ Stdout.nl; Stdout.nl;
                         "ftp://example.com" +:+ Stdout.nl]) []
      = (Stdout.print (Stdout.nl +:+ StrMore.mul "=" 60)
         ++ Stdout.print ("Checked " +:+ Str.of_nat n +:+ " URLs")
         ++ Stdout.print ("  ✅ Safe: " +:+ Str.of_nat safe_count)
         ++ Stdout.print ("  ⚠️  Suspicious: " +:+ Str.of_nat suspicious_count)
         ++ Stdout.print ("  ❌ Unsafe: " +:+ Str.of_nat unsafe_count)
         ++ tail, ending)
      ∧ n = length (List.filter (λ line, negb (String.eqb (Str.strip line) ""))
                      ["https://github.com/a" +:+ Stdout.nl; Stdout.nl;
                       "ftp://example.com" +:+ Stdout.nl])
      ∧ safe_count + unsafe_count = n
      ∧ suspicious_count ≤ safe_count.
Proof.
  assert ((λ _ : string,
             Cli.Lines ["https://github.com/a" +:+ Stdout.nl; Stdout.nl;
                        "ftp://example.com" +:+ Stdout.nl]) "urls.txt"
          = Cli.Lines ["https://github.com/a" +:+ Stdout.nl; Stdout.nl;
                       "ftp://example.com" +:+ Stdout.nl]) as H by reflexivity.
  split; [exact H|].
  exact (CliFacts.batch_report_counts Urllib.urlparse "check_url_safety.py" "urls.txt" []
           (λ _, Cli.Lines ["https://github.com/a" +:+ Stdout.nl; Stdout.nl;
                            "ftp://example.com" +:+ Stdout.nl]) [] _ H).
Defined.

(** * tools/check_existing_urls.py *)

Module ExistingUrlsFacts.
Import Cli CliFacts ExistingUrls.

Lemma categorize_acc results a b c :
  categorize results a b c
  = (a ++ List.filter (λ ur : pyval * result, safe ur.2 && negb (suspicious ur.2)) results,
     b ++ List.filter (λ ur : pyval * result, safe ur.2 && suspicious ur.2) results,
     c ++ List.filter (λ ur : pyval * result, negb (safe ur.2)) results).
Proof.
  revert a b c. induction results as [|[url r] rest IH]; intros a b c.
  - cbn. by rewrite !app_nil_r.
  - cbn [categorize List.filter snd]. destruct (safe r); cbn [negb andb].
    + destruct (suspicious r); cbn [negb]; rewrite IH; by rewrite <- app_assoc.
    + rewrite IH. by rewrite <- app_assoc.
Qed.

(** X27: the loop that sorts the results into safe, suspicious and unsafe
    puts every result in exactly one list and keeps the input order:
    unsafe are the results whose safe flag is off, suspicious those that
    are safe with warnings, safe the rest. *)
Theorem categorize_partition results :
  categorize results [] [] []
  = (List.filter (λ ur : pyval * result, safe ur.2 && negb (suspicious ur.2)) results,
     List.filter (λ ur : pyval * result, safe ur.2 && suspicious ur.2) results,
     List.filter (λ ur : pyval * result, negb (safe ur.2)) results).
Proof. apply categorize_acc. Qed.

Section Script.

Variable findall : string → string → list string.
Variable urlparse : string → exn + ParseResult.

(** X28: when chat-resources.html can be read, the script exits with
    status 1 exactly when one of the addresses found in it has an unsafe
    verdict, and with status 0 otherwise. *)
Theorem script_exit_status content :
  ∃ out code,
    script findall urlparse (inr content) = (out, Exit code)
    ∧ (code = 0 ∨ code = 1)
    ∧ (code = 1 ↔
       ∃ url v, In url (findall pattern content)
                ∧ classify urlparse URLSafetyChecker (PyStr url) = Return v
                ∧ v_safe v = false).
Proof.
  unfold script.
  destruct (check_batch_loop_run urlparse (PyStr <$> findall pattern content) []
              URLSafetyChecker) as (rs & σ' & h' & Hrun & _ & Hrs).
  unfold check_batch. rewrite Hrun. cbn [app].
  rewrite categorize_acc. cbn [app].
  pose proof (batch_unsafe urlparse σ' URLSafetyChecker _ _ Hrs) as Hex.
  rewrite <- filter_positive in Hex.
  assert ((∃ u v, In u (PyStr <$> findall pattern content)
                  ∧ classify urlparse URLSafetyChecker u = Return v ∧ v_safe v = false)
          ↔ ∃ url v, In url (findall pattern content)
                     ∧ classify urlparse URLSafetyChecker (PyStr url) = Return v
                     ∧ v_safe v = false) as Hurls.
  { split.
    - intros (u & v & Hin & Hc & Hs). apply in_fmap in Hin as (url & -> & Hin).
      by exists url, v.
    - intros (url & v & Hin & Hc & Hs). exists (PyStr url), v.
      split; [|done]. apply in_fmap. by exists url. }
  destruct (List.filter (λ ur : pyval * result, negb (safe ur.2)) rs) as [|r0 l];
    eexists _, _; (split; [reflexivity|]); (split; [auto|]);
    rewrite <- Hurls, <- Hex; split; done.
Qed.

End Script.

End ExistingUrlsFacts.

(** * tools/check_all_site_urls.py: the site-wide check *)

Module SiteCheckFacts.
Import Cli CliFacts SiteCheck.

Lemma filled_snoc {A} (l : list A) x : filled (l ++ [x]) = true.
Proof. by destruct l. Qed.

Lemma filled_length {A} (l : list A) : filled l = true ↔ length l ≠ 0.
Proof. destruct l; simpl; split; (done || lia). Qed.

Section Main.

Variable findall : string → string → list string.
Variable urlparse : string → exn + ParseResult.
Variable percent : nat → nat → string.

(** The loop over the URLs of a file returns; it adds one entry to
    [all_results] for each URL, and an entry to its unsafe list exactly for
    the URLs with an unsafe verdict. *)
Lemma check_urls_run filename urls : ∀ fs fsu fu all σ,
  ∃ fs' fsu' fu' all' σ',
    check_urls urlparse filename urls fs fsu fu all σ
    = (Return (fs', fsu', fu', all'), σ')
    ∧ length (all_safe all') + length (all_suspicious all') + length (all_unsafe all')
      = length (all_safe all) + length (all_suspicious all) + length (all_unsafe all)
        + length urls
    ∧ (filled (all_unsafe all') = true
       ↔ filled (all_unsafe all) = true
         ∨ ∃ url v, In url urls
                    ∧ classify urlparse URLSafetyChecker (PyStr url) = Return v
                    ∧ v_safe v = false).
Proof.
  induction urls as [|url rest IH]; intros fs fsu fu all σ.
  - exists fs, fsu, fu, all, σ. split; [done|]. split; [simpl; lia|].
    split; [by left|]. by intros [?|(?&?&[]&_)].
  - destruct (check_url_returns urlparse (PyStr url) σ) as (d & σ1 & v & Hrun & Hv & Hs).
    cbn [check_urls]. rewrite (bind_run _ _ _ _ _ Hrun).
    destruct (safe d) eqn:Hsafe; cbn [negb].
    + assert (∀ all1, all_unsafe all1 = all_unsafe all →
              length (all_safe all1) + length (all_suspicious all1)
              = length (all_safe all) + length (all_suspicious all) + 1 →
              ∀ f1 f2 f3, ∃ fs' fsu' fu' all' σ',
                check_urls urlparse filename rest f1 f2 f3 all1 σ1
                = (Return (fs', fsu', fu', all'), σ')
                ∧ length (all_safe all') + length (all_suspicious all')
                  + length (all_unsafe all')
                  = length (all_safe all) + length (all_suspicious all)
                    + length (all_unsafe all) + length (url :: rest)
                ∧ (filled (all_unsafe all') = true
                   ↔ filled (all_unsafe all) = true
                     ∨ ∃ url0 v0, In url0 (url :: rest)
                                  ∧ classify urlparse URLSafetyChecker (PyStr url0)
                                    = Return v0
                                  ∧ v_safe v0 = false)) as Hstep.
      { intros all1 Hu Hlen f1 f2 f3.
        destruct (IH f1 f2 f3 all1 σ1) as (fs' & fsu' & fu' & all' & σ' & Hr & Hn & Hiff).
        exists fs', fsu', fu', all', σ'. split; [done|].
        split; [rewrite Hn, Hu; simpl; lia|].
        rewrite Hiff, Hu. split.
        - intros [?|(u & w & Hin & Hc & Hw)]; [by left|].
          right. exists u, w. split; [by right|done].
        - intros [?|(u & w & [<-|Hin] & Hc & Hw)]; [by left| |].
          + rewrite Hv in Hc. injection Hc as <-. congruence.
          + right. by exists u, w. }
      destruct (suspicious d).
      * apply Hstep; [done|]. simpl. rewrite length_app. simpl. lia.
      * apply Hstep; [done|]. simpl. rewrite length_app. simpl. lia.
    + destruct (IH fs fsu (fu ++ [(url, d)])
                  {| all_safe := all_safe all;
                     all_suspicious := all_suspicious all;
                     all_unsafe := all_unsafe all ++ [(filename, url, d)] |} σ1)
        as (fs' & fsu' & fu' & all' & σ' & Hr & Hn & Hiff).
      exists fs', fsu', fu', all', σ'. split; [done|].
      split; [rewrite Hn; simpl; rewrite length_app; simpl; lia|].
      rewrite Hiff. simpl. rewrite filled_snoc. split; [|by left].
      intros _. right. exists url, v. split; [by left|]. split; [done|congruence].
Qed.

Lemma site_urls_cons html_file rest :
  site_urls findall (html_file :: rest)
  = (SiteUrls.extract_urls_from_html findall (path html_file) (content html_file)).2
    ++ site_urls findall rest.
Proof. done. Qed.

(** The loop over the files returns, with one entry in [all_results] for
    each URL of the site. *)
Lemma check_files_run html_files : ∀ σ all fr,
  ∃ out σ' all' fr',
    check_files findall urlparse html_files σ all fr = (out, inr (σ', all', fr'))
    ∧ length (all_safe all') + length (all_suspicious all') + length (all_unsafe all')
      = length (all_safe all) + length (all_suspicious all) + length (all_unsafe all)
        + length (site_urls findall html_files)
    ∧ (filled (all_unsafe all') = true
       ↔ filled (all_unsafe all) = true
         ∨ ∃ url v, In url (site_urls findall html_files)
                    ∧ classify urlparse URLSafetyChecker (PyStr url) = Return v
                    ∧ v_safe v = false).
Proof.
  induction html_files as [|f rest IH]; intros σ all fr.
  - exists [], σ, all, fr. split; [done|]. split; [simpl; lia|].
    split; [by left|]. by intros [?|(?&?&[]&_)].
  - rewrite site_urls_cons. cbn [check_files].
    destruct (SiteUrls.extract_urls_from_html findall (path f) (content f))
      as [read urls]. cbn [snd].
    destruct urls as [|url urls].
    + destruct (IH σ all fr) as (out & σ' & all' & fr' & Hr & Hn & Hiff).
      rewrite Hr. by eexists _, σ', all', fr'.
    + destruct (check_urls_run (name f) (url :: urls) [] [] [] all σ)
        as (fs1 & fsu1 & fu1 & all1 & σ1 & Hr1 & Hn1 & Hiff1).
      rewrite Hr1.
      destruct (IH σ1 all1
                  (dict_set (name f)
                     {| fr_safe := fs1; fr_suspicious := fsu1; fr_unsafe := fu1;
                        fr_total := length (url :: urls) |} fr))
        as (out & σ' & all' & fr' & Hr & Hn & Hiff).
      rewrite Hr. eexists _, σ', all', fr'. split; [reflexivity|].
      split; [rewrite Hn, Hn1, length_app; lia|].
      rewrite Hiff, Hiff1. split.
      * intros [[?|(u & w & Hin & Hc)]|(u & w & Hin & Hc)]; [by left| |].
        -- right. exists u, w. split; [|done]. apply in_or_app. by left.
        -- right. exists u, w. split; [|done]. apply in_or_app. by right.
      * intros [?|(u & w & Hin & Hc)]; [by left; left|].
        apply in_app_or in Hin as [Hin|Hin].
        -- left. right. by exists u, w.
        -- right. by exists u, w.
Qed.

(** X29: the site-wide check dies with an uncaught ZeroDivisionError
    exactly when no URL is found in any file of the site (in particular
    when the site has no HTML file): the summary divides by the number of
    URLs checked. *)
Theorem main_division_by_zero html_files :
  (∃ out, main findall urlparse percent html_files = (out, Uncaught "ZeroDivisionError"))
  ↔ site_urls findall html_files = [].
Proof.
  unfold main.
  destruct (check_files_run html_files URLSafetyChecker
              {| all_safe := []; all_suspicious := []; all_unsafe := [] |} [])
    as (out & σ' & all' & fr' & Hr & Hn & _).
  rewrite Hr. cbn [all_safe all_suspicious all_unsafe length] in Hn.
  rewrite Hn. cbn [Nat.add].
  destruct (site_urls findall html_files) as [|url urls].
  - split; [done|]. intros _. by eexists.
  - split; [|done]. cbn [length Nat.eqb].
    destruct (filled (all_unsafe all')); by intros (? & ?).
Qed.

(** X30: when some URL is found on the site, the site-wide check returns
    an exit status, which is 1 exactly when one of the URLs found has an
    unsafe verdict and 0 otherwise. *)
Theorem main_exit_status html_files :
  site_urls findall html_files ≠ [] →
  ∃ out code,
    main findall urlparse percent html_files = (out, Exit code)
    ∧ (code = 0 ∨ code = 1)
    ∧ (code = 1 ↔
       ∃ url v, In url (site_urls findall html_files)
                ∧ classify urlparse URLSafetyChecker (PyStr url) = Return v
                ∧ v_safe v = false).
Proof.
  intros Hne. unfold main.
  destruct (check_files_run html_files URLSafetyChecker
              {| all_safe := []; all_suspicious := []; all_unsafe := [] |} [])
    as (out & σ' & all' & fr' & Hr & Hn & Hiff).
  rewrite Hr. cbn [all_safe all_suspicious all_unsafe length filled] in Hn, Hiff.
  rewrite Hn. cbn [Nat.add].
  destruct (site_urls findall html_files) as [|url urls] eqn:Hurls; [done|].
  cbn [length Nat.eqb].
  destruct (filled (all_unsafe all')) eqn:Hf.
  - eexists _, 1. split; [reflexivity|]. split; [by right|].
    split; [|done]. intros _. destruct Hiff as [[?|?] _]; done.
  - eexists _, 0. split; [reflexivity|]. split; [by left|].
    split; [done|]. intros H. destruct Hiff as [_ Hback].
    assert (false = true) as Ht by (apply Hback; by right). discriminate Ht.
Qed.

End Main.

End SiteCheckFacts.

(** X29 on a site whose only page cannot be read. *)
Lemma main_division_by_zero_witness :
  ∃ out,
    SiteCheck.main (λ _ _, ["https://github.com/a"]) Urllib.urlparse (λ _ _, "0.0")
      [{| SiteCheck.path := "/site/index.html"; SiteCheck.name := "index.html";
          SiteCheck.content := inl "[Errno 13] Permission denied" |}]
    = (out, Cli.Uncaught "ZeroDivisionError").
Proof.
  apply (SiteCheckFacts.main_division_by_zero
           (λ _ _, ["https://github.com/a"]) Urllib.urlparse (λ _ _, "0.0")
           [{| SiteCheck.path := "/site/index.html"; SiteCheck.name := "index.html";
               SiteCheck.content := inl "[Errno 13] Permission denied" |}]).
  reflexivity.
Defined.

(** X30 on a site with one page holding one address, of scheme ftp. *)
Lemma main_exit_status_witness :
  SiteCheck.site_urls (λ _ _, ["ftp://example.com/a"])
    [{| SiteCheck.path := "/site/index.html"; SiteCheck.name := "index.html";
        SiteCheck.content := inr "page" |}] ≠ []
  ∧ ∃ out code,
      SiteCheck.main (λ _ _, ["ftp://example.com/a"]) Urllib.urlparse (λ _ _, "100.0")
        [{| SiteCheck.path := "/site/index.html"; SiteCheck.name := "index.html";
            SiteCheck.content := inr "page" |}]
      = (out, Cli.Exit code)
      ∧ (code = 0 ∨ code = 1)
      ∧ (code = 1 ↔
         ∃ url v,
           In url (SiteCheck.site_urls (λ _ _, ["ftp://example.com/a"])
                     [{| SiteCheck.path := "/site/index.html";
                         SiteCheck.name := "index.html";
                         SiteCheck.content := inr "page" |}])
           ∧ classify Urllib.urlparse URLSafetyChecker (PyStr url) = Return v
           ∧ v_safe v = false).
Proof.
  assert (SiteCheck.site_urls (λ _ _, ["ftp://example.com/a"])
            [{| SiteCheck.path := "/site/index.html"; SiteCheck.name := "index.html";
                SiteCheck.content := inr "page" |}] ≠ []) as H
    by (vm_compute; discriminate).
  split; [exact H|].
  exact (SiteCheckFacts.main_exit_status
           (λ _ _, ["ftp://example.com/a"]) Urllib.urlparse (λ _ _, "100.0")
           [{| SiteCheck.path := "/site/index.html"; SiteCheck.name := "index.html";
               SiteCheck.content := inr "page" |}] H).
Defined.
